(** * Jabar Bansos Analytics: the dashboard script [app.py]

    A shallow embedding of the Streamlit script: the two tables read by
    [load_data], the sidebar filter, the four KPIs, the three figures, the
    detail table and the download button, followed by the properties of
    the specification that are checked against it.

    Modelling conventions.
    - A DataFrame is the list of its rows in table order; with the default
      [RangeIndex] of [pd.read_csv] the index label of a row of a loaded
      table is its position.  A Series is the list of its values.
    - Integer columns ([Tahun], [Ranking]) are [Z]; a cell of another
      numeric column is the rational number it holds, so comparisons
      ([min], [idxmin]) are exact.  Missing cells are outside the model;
      the value pandas reports for a reduction of an empty Series (NaN)
      is [None].  What [sum] and [mean] return on given cells depends on
      the column's machine arithmetic (wrap-around of 64-bit integers,
      rounding of binary floating point): the two reductions are
      parameters of the development, and so are the text the library
      prints for a number cell and the reader's conversion of such a
      text.  So is the table sort, which may order rows of equal rank
      as it likes.
    - A script run is a computation over the two DataFrame objects that
      may read them, replace them, raise a Python exception, and that
      logs the Streamlit calls it makes, in order.  The figures and the
      Styler are objects made during the run, changed in place by their
      methods and dropped after they are shown.  Widget return values
      (the user's selection) are inputs of a run; a widget call that
      rejects its arguments is logged and raises, and so does the
      bubble chart when it is given a negative size.  The memoisation of
      [load_data] by [st.cache_data] is outside the model.  Containers
      ([st.sidebar], columns, the expander) only place elements and are
      not logged; static texts are given without their emoji, the style
      sheet by its first line. *)

From Stdlib Require Import List ZArith QArith String Ascii Bool Lia.
From Stdlib Require Import Permutation Sorted.
From Stdlib Require Import DecimalString DecimalZ DecimalPos.
From Stdlib Require OrderedTypeEx.
Import ListNotations.

Local Open Scope string_scope.
Local Open Scope list_scope.
Local Open Scope Z_scope.

(** ** The two tables *)

Module TS.
(** One row of [data_timeseries_bansos_jabar.csv]. *)
Record row := mk { Wilayah : string; Tahun : Z; Realisasi : Q }.
Definition df := list row.
End TS.

Module SPK.
(** One row of [hasil_spk_topsis.csv]. *)
Record row := mk {
  Wilayah : string;
  Ranking : Z;
  Skor_TOPSIS : Q;
  C1_Volume : Q;
  C2_Efektivitas : Q;
  C3_Tren_Pertumbuhan : Q;
  C4_Stabilitas : Q
}.
Definition df := list row.
End SPK.

(** ** The pandas operations the script calls *)

Module Pd.

(** [s.isin(values)] *)
Definition isin (s : list string) (values : list string) : list bool :=
  map (fun x => existsb (String.eqb x) values) s.

(** [s >= k], [s <= k], [s == k] on an integer Series *)
Definition ge_mask (s : list Z) (k : Z) : list bool := map (fun x => k <=? x) s.
Definition le_mask (s : list Z) (k : Z) : list bool := map (fun x => x <=? k) s.
Definition eq_mask (s : list Z) (k : Z) : list bool := map (fun x => x =? k) s.

(** [a & b] on boolean Series of one table *)
Fixpoint and_mask (a b : list bool) : list bool :=
  match a, b with
  | x :: a', y :: b' => (x && y) :: and_mask a' b'
  | _, _ => []
  end.

(** [df[mask]]: the rows at which the mask holds, in table order *)
Fixpoint getitem {A : Type} (df : list A) (mask : list bool) : list A :=
  match df, mask with
  | r :: df', b :: mask' =>
      if b then r :: getitem df' mask' else getitem df' mask'
  | _, _ => []
  end.

(** [df.head(n)] *)
Definition head {A : Type} (n : nat) (df : list A) : list A := firstn n df.

(** [df.empty] *)
Definition empty {A : Type} (df : list A) : bool :=
  match df with [] => true | _ :: _ => false end.

(** [s.max()] and [s.min()] on an integer Series: NaN when empty *)
Definition max_int (s : list Z) : option Z :=
  match s with
  | [] => None
  | x :: s' => Some (fold_left Z.max s' x)
  end.

Definition min_int (s : list Z) : option Z :=
  match s with
  | [] => None
  | x :: s' => Some (fold_left Z.min s' x)
  end.

(** [s.min()] on a numeric Series: NaN when empty *)
Definition qmin (a b : Q) : Q := if Qle_bool a b then a else b.

Definition min_num (s : list Q) : option Q :=
  match s with
  | [] => None
  | x :: s' => Some (fold_left qmin s' x)
  end.

(** [s.unique()]: the distinct values in order of first appearance *)
Fixpoint unique_from (seen : list string) (s : list string) : list string :=
  match s with
  | [] => []
  | x :: s' =>
      if existsb (String.eqb x) seen then unique_from seen s'
      else x :: unique_from (x :: seen) s'
  end.

Definition unique (s : list string) : list string := unique_from [] s.

(** One ascending sort by [Ranking]: insertion, which keeps rows of
    equal rank in table order. *)
Fixpoint insert_by_rank (r : SPK.row) (sorted : SPK.df) : SPK.df :=
  match sorted with
  | [] => [r]
  | y :: rest =>
      if SPK.Ranking r <=? SPK.Ranking y then r :: y :: rest
      else y :: insert_by_rank r rest
  end.

Definition insertion_sort (df : SPK.df) : SPK.df :=
  fold_right insert_by_rank [] df.

End Pd.

(** Rows in ascending rank, and in strictly ascending rank. *)
Definition rank_le (a b : SPK.row) : Prop := SPK.Ranking a <= SPK.Ranking b.
Definition rank_lt (a b : SPK.row) : Prop := SPK.Ranking a < SPK.Ranking b.

(** [df.sort_values('Ranking')] hands back the rows of [df] in ascending
    rank.  Its default algorithm is not stable: the order it gives to
    rows of equal rank is the library's.  The table sort is therefore
    any function that rearranges the rows into ascending rank. *)
Record ranking_sort := {
  sort_fn :> SPK.df -> SPK.df;
  sort_perm : forall df, Permutation (sort_fn df) df;
  sort_sorted : forall df, StronglySorted rank_le (sort_fn df)
}.

(** ** Sidebar state *)

Record widgets := {
  selected_regions : list string;   (* value of [st.multiselect] *)
  selected_years : Z * Z            (* value of the range [st.slider] *)
}.

(** Lines 89-93. *)
Definition df_ts_filtered (df_ts : TS.df) (w : widgets) : TS.df :=
  Pd.getitem df_ts
    (Pd.and_mask
       (Pd.and_mask (Pd.isin (map TS.Wilayah df_ts) (selected_regions w))
               (Pd.ge_mask (map TS.Tahun df_ts) (fst (selected_years w))))
       (Pd.le_mask (map TS.Tahun df_ts) (snd (selected_years w)))).

(** ** Python values and exceptions *)

Inductive exn :=
| FileNotFoundError | ValueError | IndexError | KeyError
| StreamlitAPIException.

Definition exn_eqb (a b : exn) : bool :=
  match a, b with
  | FileNotFoundError, FileNotFoundError
  | ValueError, ValueError
  | IndexError, IndexError
  | KeyError, KeyError
  | StreamlitAPIException, StreamlitAPIException => true
  | _, _ => false
  end.

(** A piece of an f-string: literal text, an integer, or a number under a
    format specification ([None] prints as nan). *)
Inductive frag :=
| Lit (s : string)
| Int (z : Z)
| Num (v : option Q) (format_spec : string).

Definition text := list frag.

(** [sorted(xs)] on strings: code-point order, which is byte order on
    UTF-8. *)
Fixpoint insert_str (x : string) (l : list string) : list string :=
  match l with
  | [] => [x]
  | y :: rest => if String.leb x y then x :: y :: rest else y :: insert_str x rest
  end.

Definition sorted (l : list string) : list string := fold_right insert_str [] l.

(** ** Figures, the styled table and the export *)

Inductive figure :=
| Line (data_frame : TS.df) (x y color : string) (markers : bool)
| Bar (data_frame : SPK.df) (x y color : string) (orientation : string)
      (yaxis_reversed : bool)
| Scatter (data_frame : SPK.df) (x y color size text_col : string)
          (hlines vlines : list (option Q)).

Definition px_line (df : TS.df) : figure :=
  Line df "Tahun" "Realisasi" "Wilayah" true.

Definition px_bar (df : SPK.df) : figure :=
  Bar df "Skor_TOPSIS" "Wilayah" "Skor_TOPSIS" "h" false.

Definition px_scatter (df : SPK.df) : figure :=
  Scatter df "C2_Efektivitas" "C4_Stabilitas" "Ranking" "C1_Volume" "Wilayah" [] [].

(** [fig.update_layout(height=...)], [fig.update_layout(hovermode=...)]
    and [fig.update_traces(textposition=...)]: settings that [figure]
    does not keep. *)
Definition update_layout_height (fig : figure) : figure := fig.
Definition update_traces_textposition (fig : figure) : figure := fig.

(** [fig.update_layout(yaxis=dict(autorange="reversed"), height=...)] *)
Definition update_layout_yaxis_reversed (fig : figure) : figure :=
  match fig with
  | Bar d x y c o _ => Bar d x y c o true
  | f => f
  end.

Definition add_hline (fig : figure) (y : option Q) : figure :=
  match fig with
  | Scatter d x y' c s t hs vs => Scatter d x y' c s t (hs ++ [y]) vs
  | f => f
  end.

Definition add_vline (fig : figure) (x : option Q) : figure :=
  match fig with
  | Scatter d x' y c s t hs vs => Scatter d x' y c s t hs (vs ++ [x])
  | f => f
  end.

(** The bars of a horizontal bar chart from the top of the plot down.
    The plotting library stacks categories upwards in row order, so the
    first row is at the bottom unless the axis is reversed. *)
Definition bars_top_down (fig : figure) : SPK.df :=
  match fig with
  | Bar d _ _ _ _ reversed => if reversed then d else rev d
  | _ => []
  end.

(** [df.style.format({...}).background_gradient(subset=[...], cmap=...)] *)
Record styler := {
  styled : SPK.df;
  formats : list (string * string);
  gradient_subset : list string;
  cmap : string
}.

(** [df.style]: a Styler over the table, with nothing set yet. *)
Definition style (df : SPK.df) : styler :=
  {| styled := df; formats := []; gradient_subset := []; cmap := "" |}.

(** [styler.format({...})] *)
Definition style_format (fs : list (string * string)) (s : styler) : styler :=
  {| styled := styled s; formats := fs;
     gradient_subset := gradient_subset s; cmap := cmap s |}.

(** [styler.background_gradient(subset=[...], cmap=...)] *)
Definition background_gradient (subset : list string) (cm : string) (s : styler) : styler :=
  {| styled := styled s; formats := formats s; gradient_subset := subset; cmap := cm |}.

(** [df.to_csv(index=...).encode('utf-8')]: the call, with the table and
    the flag it is given; [export_bytes] below gives its bytes. *)
Inductive payload := to_csv_utf8 (df : SPK.df) (index : bool).

(** ** Streamlit calls *)

Inductive event :=
| set_page_config (page_title layout : string)
| markdown (body : string)
| title (body : string)
| subheader (body : text)
| info (body : string)
| caption (body : string)
| error (body : string)
| warning (body : string)
| multiselect (label : string) (options default : list string)
| slider (label : string) (min_value max_value : Z) (value : Z * Z)
| metric (label : string) (value : text) (delta : text)
| plotly_chart (fig : figure)
| dataframe (data : styler)
| download_button (label : string) (data : payload) (file_name mime : string).

(** ** Script runs *)

Inductive outcome (A : Type) :=
| Ok (a : A)           (* ran to the end *)
| Raise (e : exn)      (* an exception left the script *)
| Stopped.             (* [st.stop()] *)
Arguments Ok {A} a.
Arguments Raise {A} e.
Arguments Stopped {A}.

(** A computation over a store [S]: its outcome, the store it leaves and
    the calls it logged. *)
Definition M (S A : Type) : Type := S -> outcome A * S * list event.

Definition ret {S A : Type} (a : A) : M S A := fun s => (Ok a, s, []).

Definition bind {S A B : Type} (m : M S A) (k : A -> M S B) : M S B :=
  fun s =>
    match m s with
    | (Ok a, s1, l1) => let '(r, s2, l2) := k a s1 in (r, s2, l1 ++ l2)
    | (Raise e, s1, l1) => (Raise e, s1, l1)
    | (Stopped, s1, l1) => (Stopped, s1, l1)
    end.

Definition raise {S A : Type} (e : exn) : M S A := fun s => (Raise e, s, []).
Definition stop {S A : Type} : M S A := fun s => (Stopped, s, []).
Definition emit {S : Type} (e : event) : M S unit := fun s => (Ok tt, s, [e]).
Definition gets {S A : Type} (f : S -> A) : M S A := fun s => (Ok (f s), s, []).
Definition puts {S : Type} (f : S -> S) : M S unit := fun s => (Ok tt, f s, []).

(** [try: body except E: handler] *)
Definition try_except {S A : Type} (body : M S A) (E : exn) (handler : M S A) : M S A :=
  fun s =>
    match body s with
    | (Raise e, s1, l1) =>
        if exn_eqb e E
        then let '(r, s2, l2) := handler s1 in (r, s2, l1 ++ l2)
        else (Raise e, s1, l1)
    | r => r
    end.

Declare Scope run_scope.
Delimit Scope run_scope with run.
Notation "x <- m ;; k" := (bind m (fun x => k))
  (at level 61, m at next level, right associativity) : run_scope.
Notation "m ;; k" := (bind m (fun _ => k))
  (at level 61, right associativity) : run_scope.
Local Open Scope run_scope.

(** ** Objects made during a run

    A figure and a Styler are objects of their own, next to the store
    of the run.  [with_object o m] runs [m] with the new object [o] at
    hand and drops the object at the end; [this] reads it; [in_place f]
    is a method that changes its receiver, as [update_layout],
    [add_hline], [add_vline], [format] and [background_gradient] do. *)

Definition with_object {S O A : Type} (o : O) (m : M (S * O) A) : M S A :=
  fun s => let '(r, so, l) := m (s, o) in (r, fst so, l).

Definition this {S O : Type} : M (S * O) O := gets snd.

Definition in_place {S O : Type} (f : O -> O) : M (S * O) unit :=
  puts (fun so => (fst so, f (snd so))).

(** [px.scatter(df, ..., size='C1_Volume', ...)]: a bubble size must not
    be negative; the call raises otherwise. *)
Definition sizes_drawable (df : SPK.df) : bool :=
  forallb (fun r => Qle_bool 0 (SPK.C1_Volume r)) df.

Definition px_scatter_sized {S : Type} (df : SPK.df) : M S figure :=
  if sizes_drawable df then ret (px_scatter df) else raise ValueError.

(** [int(x)]: raises on NaN *)
Definition py_int {S : Type} (x : option Z) : M S Z :=
  match x with
  | Some z => ret z
  | None => raise ValueError
  end.

(** [a.values[0]] *)
Definition values0 {S A : Type} (a : list A) : M S A :=
  match a with
  | x :: _ => ret x
  | [] => raise IndexError
  end.

(** [s.idxmin()]: the label of the first occurrence of the minimum;
    raises on an empty Series.  [best] is the position of the least value
    seen so far, [v] that value and [i] the next position. *)
Fixpoint argmin_from (best : nat) (v : Q) (i : nat) (s : list Q) : nat :=
  match s with
  | [] => best
  | x :: s' =>
      if Qle_bool v x then argmin_from best v (S i) s'
      else argmin_from i x (S i) s'
  end.

Definition idxmin {S : Type} (s : list Q) : M S nat :=
  match s with
  | [] => raise ValueError
  | x :: s' => ret (argmin_from 0 x 1 s')
  end.

(** [df.loc[label, 'Wilayah']] on a table with the default index *)
Definition loc_Wilayah {S : Type} (df : SPK.df) (label : nat) : M S string :=
  match nth_error df label with
  | Some r => ret (SPK.Wilayah r)
  | None => raise KeyError
  end.

(** ** Widget calls *)

(** [st.multiselect(label, options, default)]: every default must be one
    of the options, otherwise the call raises; it returns the user's
    selection. *)
Definition st_multiselect {S : Type} (label : string) (options default : list string)
    (selection : list string) : M S (list string) :=
  emit (multiselect label options default) ;;
  if forallb (fun d => existsb (String.eqb d) options) default
  then ret selection
  else raise StreamlitAPIException.

(** The integers a slider can hand to the browser. *)
Definition MAX_SAFE_INTEGER : Z := 2 ^ 53 - 1.

(** [st.slider(label, min_value, max_value, value)]: [min_value] must be
    less than [max_value] and both must be integers the browser holds
    exactly, otherwise the call raises; it returns the user's range. *)
Definition slider_accepts (min_value max_value : Z) : bool :=
  (min_value <? max_value)
  && (- MAX_SAFE_INTEGER <=? min_value) && (max_value <=? MAX_SAFE_INTEGER).

Definition st_slider {S : Type} (label : string) (min_value max_value : Z)
    (value : Z * Z) (selection : Z * Z) : M S (Z * Z) :=
  emit (slider label min_value max_value value) ;;
  if slider_accepts min_value max_value
  then ret selection
  else raise StreamlitAPIException.

(** ** The CSV text of the export

    Modelled from the library's documentation: [to_csv] writes a header
    and one record per row, fields separated by commas, records ended
    by a line feed, and quotes a field only when it holds a comma, a
    quote or a line feed, doubling the quotes inside.  The reader splits
    records at line feeds and carriage returns outside quotes, skips
    blank lines, undoes the quoting, and reads a field that is empty or
    one of the default missing-value markers as missing.  It keeps a
    column as text unless all its fields are numbers or truth values,
    missing ones aside. *)

Module Csv.

Definition bytes := list ascii.

Definition comma : ascii := ascii_of_nat 44.
Definition dquote : ascii := ascii_of_nat 34.
Definition LF : ascii := ascii_of_nat 10.
Definition CR : ascii := ascii_of_nat 13.

Definition bytes_of (s : string) : bytes := list_ascii_of_string s.
Definition str_of (b : bytes) : string := string_of_list_ascii b.

(** *** Writer *)

Definition special (c : ascii) : bool :=
  Ascii.eqb c comma || Ascii.eqb c dquote || Ascii.eqb c LF.

Definition needs_quote (f : bytes) : bool := existsb special f.

Fixpoint double_quotes (f : bytes) : bytes :=
  match f with
  | [] => []
  | c :: f' =>
      if Ascii.eqb c dquote then dquote :: dquote :: double_quotes f'
      else c :: double_quotes f'
  end.

Definition write_field (f : bytes) : bytes :=
  if needs_quote f then dquote :: double_quotes f ++ [dquote] else f.

Fixpoint write_record (fields : list bytes) : bytes :=
  match fields with
  | [] => [LF]
  | [f] => write_field f ++ [LF]
  | f :: fs => write_field f ++ comma :: write_record fs
  end.

(** [str(n)] of an integer cell *)
Definition write_int (z : Z) : bytes :=
  bytes_of (NilZero.string_of_int (Z.to_int z)).

(** *** Reader *)

Inductive mode := StartField | Unquoted | Quoted | QuoteInQuoted.

(** The reader's state: where it is, the field, the record and the
    records read so far, each latest first. *)
Record lexer := {
  st : mode;
  field : bytes;
  record : list bytes;
  records : list (list bytes)
}.

Definition init : lexer :=
  {| st := StartField; field := []; record := []; records := [] |}.

Definition push (c : ascii) (m : mode) (l : lexer) : lexer :=
  {| st := m; field := c :: field l; record := record l; records := records l |}.

Definition enter (m : mode) (l : lexer) : lexer :=
  {| st := m; field := field l; record := record l; records := records l |}.

Definition end_field (l : lexer) : lexer :=
  {| st := StartField; field := []; record := rev (field l) :: record l;
     records := records l |}.

Definition end_record (l : lexer) : lexer :=
  {| st := StartField; field := []; record := [];
     records := rev (rev (field l) :: record l) :: records l |}.

Definition is_eol (c : ascii) : bool := Ascii.eqb c LF || Ascii.eqb c CR.

Definition step (l : lexer) (c : ascii) : lexer :=
  match st l with
  | StartField =>
      if Ascii.eqb c dquote then enter Quoted l
      else if Ascii.eqb c comma then end_field l
      else if is_eol c then
        match record l with
        | [] => l                              (* a blank line *)
        | _ :: _ => end_record l
        end
      else push c Unquoted l
  | Unquoted =>
      if Ascii.eqb c comma then end_field l
      else if is_eol c then end_record l
      else push c Unquoted l
  | Quoted =>
      if Ascii.eqb c dquote then enter QuoteInQuoted l
      else push c Quoted l
  | QuoteInQuoted =>
      if Ascii.eqb c dquote then push c Quoted l
      else if Ascii.eqb c comma then end_field l
      else if is_eol c then end_record l
      else push c Unquoted l
  end.

Definition tokenize (text : bytes) : list (list bytes) :=
  let l := fold_left step text init in
  rev (match st l, field l, record l with
       | StartField, [], [] => records l
       | _, _, _ => records (end_record l)
       end).

(** The reader's default missing-value markers. *)
Definition NA_markers : list string :=
  [""; "#N/A"; "#N/A N/A"; "#NA"; "-1.#IND"; "-1.#QNAN"; "-NaN"; "-nan";
   "1.#IND"; "1.#QNAN"; "<NA>"; "N/A"; "NA"; "NULL"; "NaN"; "None"; "n/a";
   "nan"; "null"].

Definition is_missing (s : string) : bool := existsb (String.eqb s) NA_markers.

(** A cell of the text column: [None] when it reads as missing. *)
Definition parse_name (f : bytes) : option string :=
  if is_missing (str_of f) then None else Some (str_of f).

(** The reader's truth values: [True] and [False] in any letter case. *)
Definition lower (c : ascii) : ascii :=
  let n := nat_of_ascii c in
  if ((65 <=? n) && (n <=? 90))%nat then ascii_of_nat (n + 32) else c.

Definition is_truth_value (s : string) : bool :=
  let t := str_of (map lower (bytes_of s)) in
  String.eqb t "true" || String.eqb t "false".

(** A cell of the integer column. *)
Definition parse_int (f : bytes) : option Z :=
  option_map Z.of_int (NilZero.int_of_string (str_of f)).

Definition columns : list string :=
  ["Wilayah"; "Ranking"; "Skor_TOPSIS"; "C1_Volume"; "C2_Efektivitas";
   "C3_Tren_Pertumbuhan"; "C4_Stabilitas"].

End Csv.

(** ** Sample tables

    Two regions over two years and their ranking; a ranking with two
    regions tied at rank 1 and at the least deviation, and a time series
    for it; a ranking without a rank-1 row; a ranking in whole numbers
    with a region name that holds a comma. *)

Definition ts_AB : TS.df :=
  [TS.mk "A" 2023 10; TS.mk "A" 2024 20; TS.mk "B" 2023 5; TS.mk "B" 2024 15].

Definition spk_AB : SPK.df :=
  [SPK.mk "A" 1 (9 # 10) 30 90 5 4; SPK.mk "B" 2 (5 # 10) 20 80 3 2].

Definition spk_tie : SPK.df :=
  [SPK.mk "C" 2 (4 # 10) 10 70 1 3; SPK.mk "A" 1 (9 # 10) 30 90 5 2;
   SPK.mk "B" 1 (9 # 10) 20 80 3 2].

Definition ts_ABC : TS.df := ts_AB ++ [TS.mk "C" 2023 7; TS.mk "C" 2024 9].

Definition spk_no_first : SPK.df :=
  [SPK.mk "A" 2 (9 # 10) 30 90 5 4; SPK.mk "B" 3 (5 # 10) 20 80 3 2].

Definition spk_whole : SPK.df :=
  [SPK.mk "Bandung, Kota" 1 1 30 90 5 4; SPK.mk "B" 2 0 20 80 (-3) 2].

Definition only_A : widgets :=
  {| selected_regions := ["A"]; selected_years := (2023, 2024) |}.

(** The reductions of a column whose arithmetic is exact, and a number
    text that is exact on whole numbers: one reading of the parameters
    below, used in the worked examples. *)
Definition sum_exact (s : list Q) : Q := fold_left Qplus s 0%Q.

Definition mean_exact (s : list Q) : Q :=
  (sum_exact s / inject_Z (Z.of_nat (List.length s)))%Q.

Definition whole_repr (q : Q) : string := NilZero.string_of_int (Z.to_int (Qnum q)).

Definition whole_parse (s : string) : option Q :=
  option_map (fun d => inject_Z (Z.of_int d)) (NilZero.int_of_string s).

Section Script.

Set Default Proof Using "Type".

(** ** The library's arithmetic and number texts *)

(** [s.sum()] and [s.mean()] of a non-empty numeric Series, on its cells
    in order. *)
Variable Series_sum : list Q -> Q.
Variable Series_mean : list Q -> Q.

(** The text [to_csv] prints for a number cell, and the number the
    reader makes of a field: [None] when it makes none of it. *)
Variable number_repr : Q -> string.
Variable number_parse : string -> option Q.

(** [df.sort_values('Ranking')] *)
Variable sort_values_Ranking : ranking_sort.

(** Drops the parameters a statement does not speak of. *)
Ltac only_used :=
  try clear sort_values_Ranking;
  try clear number_parse; try clear number_repr;
  try clear Series_mean; try clear Series_sum.

(** [s.sum()]: 0 on an empty Series *)
Definition sum_num (s : list Q) : Q :=
  match s with
  | [] => 0%Q
  | _ :: _ => Series_sum s
  end.

(** [s.mean()]: NaN on an empty Series *)
Definition mean_num (s : list Q) : option Q :=
  match s with
  | [] => None
  | _ :: _ => Some (Series_mean s)
  end.

(** ** Section 2 of the script: [load_data] *)

(** The working directory: each of the two files with the table it
    parses to, or [None] when the file does not exist. *)
Record disk := {
  data_timeseries_bansos_jabar_csv : option TS.df;
  hasil_spk_topsis_csv : option SPK.df
}.

(** [pd.read_csv(path)] *)
Definition read_csv {A : Type} (path : disk -> option A) : M disk A :=
  fun d =>
    match path d with
    | Some t => (Ok t, d, [])
    | None => (Raise FileNotFoundError, d, [])
    end.

Definition file_not_found_message : string :=
  "File CSV tidak ditemukan! Pastikan 'data_timeseries_bansos_jabar.csv' dan 'hasil_spk_topsis.csv' ada di folder yang sama.".

(** Lines 35-50. *)
Definition load_data : M disk (option TS.df * option SPK.df) :=
  try_except
    (df_ts <- read_csv data_timeseries_bansos_jabar_csv ;;
     df_spk <- read_csv hasil_spk_topsis_csv ;;
     ret (Some df_ts, Some df_spk))
    FileNotFoundError
    (emit (error file_not_found_message) ;;
     ret (None, None)).

(** ** The two loaded tables *)

Record frames := { df_ts : TS.df; df_spk : SPK.df }.

(** [df_spk.sort_values('Ranking')]: a new table, the receiver is left
    as it is. *)
Definition sort_values : M frames SPK.df :=
  spk <- gets df_spk ;;
  ret (sort_values_Ranking spk).

(** [df_spk.sort_values('Ranking', inplace=True)]: the receiver itself
    is reordered.  The script never passes [inplace]. *)
Definition sort_values_inplace : M frames unit :=
  puts (fun fr => {| df_ts := df_ts fr;
                     df_spk := sort_values_Ranking (df_spk fr) |}).

(** ** Section 3: sidebar *)

(** Lines 62-86.  Returns [max_year], the only name later sections read
    besides the widget values. *)
Definition sidebar (w : widgets) : M frames Z :=
  emit (title "Jabar Bansos Analytics") ;;
  emit (markdown "Dashboard Evaluasi Kinerja Penyaluran Bansos (2018-2024)") ;;
  emit (markdown "---") ;;
  ts <- gets df_ts ;;
  let all_regions := sorted (Pd.unique (map TS.Wilayah ts)) in
  by_rank <- sort_values ;;
  st_multiselect "Pilih Wilayah untuk Analisis Tren:" all_regions
    (Pd.head 5 (map SPK.Wilayah by_rank)) (selected_regions w) ;;
  ts <- gets df_ts ;;
  min_year <- py_int (Pd.min_int (map TS.Tahun ts)) ;;
  ts <- gets df_ts ;;
  max_year <- py_int (Pd.max_int (map TS.Tahun ts)) ;;
  st_slider "Rentang Tahun:" min_year max_year (min_year, max_year)
    (selected_years w) ;;
  emit (markdown "---") ;;
  emit (info "Metodologi: CRITIC, TOPSIS") ;;
  emit (caption "Developed for UAS SPK") ;;
  ret max_year.

(** ** Section 4: header and KPIs *)

(** Line 105. *)
Definition total_realisasi_2024 (ts : TS.df) (max_year : Z) : Q :=
  sum_num
    (map TS.Realisasi (Pd.getitem ts (Pd.eq_mask (map TS.Tahun ts) max_year))).

(** Line 109. *)
Definition avg_eff (spk : SPK.df) : option Q :=
  mean_num (map SPK.C2_Efektivitas spk).

(** Lines 113 and 114. *)
Definition top_region {S : Type} (spk : SPK.df) : M S string :=
  values0 (map SPK.Wilayah (Pd.getitem spk (Pd.eq_mask (map SPK.Ranking spk) 1))).

Definition top_score {S : Type} (spk : SPK.df) : M S Q :=
  values0 (map SPK.Skor_TOPSIS (Pd.getitem spk (Pd.eq_mask (map SPK.Ranking spk) 1))).

(** Lines 119 and 120. *)
Definition stable_region {S : Type} (spk : SPK.df) : M S string :=
  label <- idxmin (map SPK.C4_Stabilitas spk) ;;
  loc_Wilayah spk label.

Definition stable_value (spk : SPK.df) : option Q :=
  Pd.min_num (map SPK.C4_Stabilitas spk).

(** Lines 98-123. *)
Definition kpis (max_year : Z) : M frames unit :=
  emit (title "Executive Summary: Stabilitas Bansos Jabar") ;;
  emit (markdown "Analisis Efektivitas dan Stabilitas Kinerja Wilayah Menggunakan Metode **Hybrid CRITIC-TOPSIS**") ;;
  ts <- gets df_ts ;;
  emit (metric "Total Penerima (2024)"
          [Num (Some (total_realisasi_2024 ts max_year)) ",.0f"] [Lit "KPM"]) ;;
  spk <- gets df_spk ;;
  emit (metric "Rata-rata Efektivitas"
          [Num (avg_eff spk) ".2f"; Lit "%"] [Lit "Target Realisasi"]) ;;
  spk <- gets df_spk ;;
  region <- top_region spk ;;
  spk <- gets df_spk ;;
  score <- top_score spk ;;
  emit (metric "Wilayah Terbaik" [Lit region] [Lit "Skor: "; Num (Some score) ".3f"]) ;;
  spk <- gets df_spk ;;
  stable <- stable_region spk ;;
  spk <- gets df_spk ;;
  emit (metric "Paling Stabil (Deviasi Terendah)"
          [Lit stable] [Lit "+-"; Num (stable_value spk) ",.0f"]) ;;
  emit (markdown "---").

(** ** Section 5: trend and ranking charts *)

Definition no_region_message : string :=
  "Silakan pilih wilayah di sidebar untuk melihat grafik.".

(** Lines 130-147. *)
Definition trend (w : widgets) (filtered : TS.df) : M frames unit :=
  emit (subheader [Lit "Tren Penyaluran Bansos ("; Int (fst (selected_years w));
                   Lit "-"; Int (snd (selected_years w)); Lit ")"]) ;;
  if negb (Pd.empty filtered)
  then with_object (px_line filtered)
         (in_place update_layout_height ;;
          fig_line <- this ;;
          emit (plotly_chart fig_line))
  else emit (warning no_region_message).

(** Line 153. *)
Definition top_10 (spk : SPK.df) : SPK.df :=
  Pd.head 10 (sort_values_Ranking spk).

(** Lines 155-167. *)
Definition fig_bar (spk : SPK.df) : figure :=
  update_layout_yaxis_reversed (px_bar (top_10 spk)).

(** Lines 149-168. *)
Definition ranking_chart : M frames unit :=
  emit (subheader [Lit "Top 10 Prioritas Wilayah"]) ;;
  by_rank <- sort_values ;;
  let top_10 := Pd.head 10 by_rank in
  with_object (px_bar top_10)
    (in_place update_layout_yaxis_reversed ;;
     fig_bar <- this ;;
     emit (plotly_chart fig_bar)).

(** ** Section 6: quadrant analysis *)

(** Lines 173-205. *)
Definition quadrant : M frames unit :=
  emit (markdown "---") ;;
  emit (subheader [Lit "Analisis Kuadran: Efektivitas vs Stabilitas"]) ;;
  emit (markdown "Grafik ini memetakan posisi setiap wilayah berdasarkan dua indikator kunci") ;;
  spk <- gets df_spk ;;
  let mean_eff := mean_num (map SPK.C2_Efektivitas spk) in
  spk <- gets df_spk ;;
  let mean_stab := mean_num (map SPK.C4_Stabilitas spk) in
  spk <- gets df_spk ;;
  fig_scatter <- px_scatter_sized spk ;;
  with_object fig_scatter
    (in_place (fun fig => add_hline fig mean_stab) ;;
     in_place (fun fig => add_vline fig mean_eff) ;;
     in_place update_traces_textposition ;;
     in_place update_layout_height ;;
     fig_scatter <- this ;;
     emit (plotly_chart fig_scatter)).

(** ** Section 7: detail table and export *)

Definition detail_formats : list (string * string) :=
  [("Skor_TOPSIS", "{:.4f}"); ("C1_Volume", "{:,.0f}");
   ("C2_Efektivitas", "{:.2f}%"); ("C3_Tren_Pertumbuhan", "{:.2f}%");
   ("C4_Stabilitas", "{:,.2f}")].

(** Line 226. *)
Definition csv (spk : SPK.df) : payload := to_csv_utf8 spk false.

(** Lines 210-232. *)
Definition detail : M frames unit :=
  emit (markdown "Berikut adalah hasil perhitungan lengkap matriks keputusan.") ;;
  spk <- gets df_spk ;;
  with_object (style spk)
    (in_place (style_format detail_formats) ;;
     in_place (background_gradient ["Skor_TOPSIS"] "Greens") ;;
     styled_table <- this ;;
     emit (dataframe styled_table)) ;;
  spk <- gets df_spk ;;
  emit (download_button "Download Hasil Analisis (CSV)" (csv spk)
          "Laporan_SPK_Bansos_Jabar.csv" "text/csv").

(** ** Section 8: footer *)

Definition footer : M frames unit :=
  emit (markdown "---") ;;
  emit (caption "(c) 2025 Jabar Bansos Analytics | Dashboard created for Decision Support System Final Project").

(** ** The script from line 62 on, over the loaded tables *)

Definition page (w : widgets) : M frames unit :=
  max_year <- sidebar w ;;
  ts <- gets df_ts ;;
  let filtered := df_ts_filtered ts w in
  kpis max_year ;;
  trend w filtered ;;
  ranking_chart ;;
  quadrant ;;
  detail ;;
  footer.

(** ** The whole script *)

(** Lines 9-29. *)
Definition preamble : M disk unit :=
  emit (set_page_config "Jabar Bansos Analytics" "wide") ;;
  emit (markdown "<style> .stMetric ... </style>").

(** One run of [app.py] in a working directory [d] under the sidebar
    state [w]: how it ended and what it put on the page. *)
Definition app_py (d : disk) (w : widgets) : outcome unit * list event :=
  match (preamble ;; load_data) d with
  | (Ok (Some ts, Some spk), _, l0) =>
      let '(r, _, l1) := page w {| df_ts := ts; df_spk := spk |} in
      (r, l0 ++ l1)
  | (Ok _, _, l0) => (Stopped, l0)                     (* lines 56-57 *)
  | (Raise e, _, l0) => (Raise e, l0)
  | (Stopped, _, l0) => (Stopped, l0)
  end.

(** A session after loading: one run of [page] per interaction, each on
    the table objects the previous run left. *)
Fixpoint session (fr : frames) (ws : list widgets) : frames :=
  match ws with
  | [] => fr
  | w :: ws' => let '(_, fr', _) := page w fr in session fr' ws'
  end.

(** ** The bytes of the export *)

(** The fields of a row: the region name as it is, the rank in decimal,
    the numbers as the library prints them. *)
Definition row_fields (r : SPK.row) : list Csv.bytes :=
  [Csv.bytes_of (SPK.Wilayah r); Csv.write_int (SPK.Ranking r);
   Csv.bytes_of (number_repr (SPK.Skor_TOPSIS r));
   Csv.bytes_of (number_repr (SPK.C1_Volume r));
   Csv.bytes_of (number_repr (SPK.C2_Efektivitas r));
   Csv.bytes_of (number_repr (SPK.C3_Tren_Pertumbuhan r));
   Csv.bytes_of (number_repr (SPK.C4_Stabilitas r))].

(** The records [to_csv] writes: the header, then the rows; with
    [index] each record starts with the row label, under an empty
    column name. *)
Definition csv_records (index : bool) (t : SPK.df) : list (list Csv.bytes) :=
  if index
  then (Csv.bytes_of "" :: map Csv.bytes_of Csv.columns)
       :: map (fun ir => Csv.write_int (Z.of_nat (fst ir)) :: row_fields (snd ir))
            (combine (seq 0 (List.length t)) t)
  else map Csv.bytes_of Csv.columns :: map row_fields t.

Definition to_csv (index : bool) (t : SPK.df) : Csv.bytes :=
  flat_map Csv.write_record (csv_records index t).

Definition export_bytes (p : payload) : Csv.bytes :=
  match p with to_csv_utf8 t index => to_csv index t end.

(** Reading the text back as a ranking table: the header must name the
    seven columns, the first column must stay text, and every record
    must have a region name that is not missing, an integer rank and
    five numbers. *)
Definition parse_row (fields : list Csv.bytes) : option SPK.row :=
  match fields with
  | [a; b; c; d; e; f; g] =>
      match Csv.parse_name a, Csv.parse_int b,
            number_parse (Csv.str_of c), number_parse (Csv.str_of d),
            number_parse (Csv.str_of e), number_parse (Csv.str_of f),
            number_parse (Csv.str_of g) with
      | Some a', Some b', Some c', Some d', Some e', Some f', Some g' =>
          Some (SPK.mk a' b' c' d' e' f' g')
      | _, _, _, _, _, _, _ => None
      end
  | _ => None
  end.

Fixpoint parse_rows (recs : list (list Csv.bytes)) : option SPK.df :=
  match recs with
  | [] => Some []
  | rec :: recs' =>
      match parse_row rec, parse_rows recs' with
      | Some r, Some t => Some (r :: t)
      | _, _ => None
      end
  end.

(** The reader's typing of a column: it stays text unless every field
    is a number or missing, or every field is a truth value or missing.
    A column without fields stays as it is. *)
Definition is_number (s : string) : bool :=
  match number_parse s with Some _ => true | None => false end.

Definition text_column (cells : list string) : bool :=
  match cells with
  | [] => true
  | _ :: _ =>
      negb (forallb (fun s => Csv.is_missing s || is_number s) cells) &&
      negb (forallb (fun s => Csv.is_missing s || Csv.is_truth_value s) cells)
  end.

Definition parse_csv (text : Csv.bytes) : option SPK.df :=
  match Csv.tokenize text with
  | header :: recs =>
      if list_eq_dec String.string_dec (map Csv.str_of header) Csv.columns
      then if text_column (map (fun rec => Csv.str_of (hd [] rec)) recs)
           then parse_rows recs
           else None
      else None
  | [] => None
  end.

(** * Definitions used to state the properties *)

(** The filter's predicate as the specification words it. *)
Definition in_filterb (R : list string) (lo hi : Z) (r : TS.row) : bool :=
  existsb (String.eqb (TS.Wilayah r)) R
  && (lo <=? TS.Tahun r) && (TS.Tahun r <=? hi).

(** The three parts of a finished run. *)
Definition store_of {S A : Type} (x : outcome A * S * list event) : S := snd (fst x).
Definition outcome_of {S A : Type} (x : outcome A * S * list event) : outcome A :=
  fst (fst x).
Definition log_of {S A : Type} (x : outcome A * S * list event) : list event := snd x.

(** A computation that leaves every store as it found it. *)
Definition read_only {S A : Type} (m : M S A) : Prop :=
  forall s, store_of (m s) = s.

(** A computation with an object at hand that may change the object but
    leaves the store as it found it. *)
Definition own_object_only {S O A : Type} (m : M (S * O) A) : Prop :=
  forall so, fst (store_of (m so)) = fst so.

(** ** What the parts of the script log

    The calls of each stretch of the script, written out: before the
    tables are loaded, the sidebar up to the region selector and up to
    its end, the KPI row up to and after the best-region lookup, the
    trend column, and everything below it. *)

Definition preamble_log : list event :=
  [set_page_config "Jabar Bansos Analytics" "wide";
   markdown "<style> .stMetric ... </style>"].

Definition sidebar_head_log (fr : frames) : list event :=
  [title "Jabar Bansos Analytics";
   markdown "Dashboard Evaluasi Kinerja Penyaluran Bansos (2018-2024)";
   markdown "---";
   multiselect "Pilih Wilayah untuk Analisis Tren:"
     (sorted (Pd.unique (map TS.Wilayah (df_ts fr))))
     (Pd.head 5 (map SPK.Wilayah (sort_values_Ranking (df_spk fr))))].

Definition slider_call (lo hi : Z) : event :=
  slider "Rentang Tahun:" lo hi (lo, hi).

Definition sidebar_log (fr : frames) (lo hi : Z) : list event :=
  sidebar_head_log fr ++
  [slider_call lo hi;
   markdown "---";
   info "Metodologi: CRITIC, TOPSIS";
   caption "Developed for UAS SPK"].

Definition metric_total (ts : TS.df) (max_year : Z) : event :=
  metric "Total Penerima (2024)"
    [Num (Some (total_realisasi_2024 ts max_year)) ",.0f"] [Lit "KPM"].

Definition kpi_head_log (fr : frames) (max_year : Z) : list event :=
  [title "Executive Summary: Stabilitas Bansos Jabar";
   markdown "Analisis Efektivitas dan Stabilitas Kinerja Wilayah Menggunakan Metode **Hybrid CRITIC-TOPSIS**";
   metric_total (df_ts fr) max_year;
   metric "Rata-rata Efektivitas"
     [Num (avg_eff (df_spk fr)) ".2f"; Lit "%"] [Lit "Target Realisasi"]].

Definition metric_best (region : string) (score : Q) : event :=
  metric "Wilayah Terbaik" [Lit region] [Lit "Skor: "; Num (Some score) ".3f"].

Definition metric_stable (region : string) (value : option Q) : event :=
  metric "Paling Stabil (Deviasi Terendah)" [Lit region] [Lit "+-"; Num value ",.0f"].

Definition trend_log (w : widgets) (filtered : TS.df) : list event :=
  [subheader [Lit "Tren Penyaluran Bansos ("; Int (fst (selected_years w));
              Lit "-"; Int (snd (selected_years w)); Lit ")"];
   if negb (Pd.empty filtered) then plotly_chart (px_line filtered)
   else warning no_region_message].

Definition lower_log (fr : frames) : list event :=
  [subheader [Lit "Top 10 Prioritas Wilayah"];
   plotly_chart (fig_bar (df_spk fr));
   markdown "---";
   subheader [Lit "Analisis Kuadran: Efektivitas vs Stabilitas"];
   markdown "Grafik ini memetakan posisi setiap wilayah berdasarkan dua indikator kunci";
   plotly_chart
     (add_vline (add_hline (px_scatter (df_spk fr))
                   (mean_num (map SPK.C4_Stabilitas (df_spk fr))))
        (mean_num (map SPK.C2_Efektivitas (df_spk fr))));
   markdown "Berikut adalah hasil perhitungan lengkap matriks keputusan.";
   dataframe {| styled := df_spk fr; formats := detail_formats;
                gradient_subset := ["Skor_TOPSIS"]; cmap := "Greens" |};
   download_button "Download Hasil Analisis (CSV)" (csv (df_spk fr))
     "Laporan_SPK_Bansos_Jabar.csv" "text/csv";
   markdown "---";
   caption "(c) 2025 Jabar Bansos Analytics | Dashboard created for Decision Support System Final Project"].

(** What the page shows below the trend column when the bubble chart is
    refused. *)
Definition charts_head_log (fr : frames) : list event :=
  [subheader [Lit "Top 10 Prioritas Wilayah"];
   plotly_chart (fig_bar (df_spk fr));
   markdown "---";
   subheader [Lit "Analisis Kuadran: Efektivitas vs Stabilitas"];
   markdown "Grafik ini memetakan posisi setiap wilayah berdasarkan dua indikator kunci"].

(** The rows of the ranking table whose [Ranking] is 1, in table order. *)
Definition rank1_rows (spk : SPK.df) : SPK.df :=
  Pd.getitem spk (Pd.eq_mask (map SPK.Ranking spk) 1).

Definition kpi_tail_log (fr : frames) (best stable : SPK.row) : list event :=
  [metric_best (SPK.Wilayah best) (SPK.Skor_TOPSIS best);
   metric_stable (SPK.Wilayah stable) (stable_value (df_spk fr));
   markdown "---"].

(** ** The sidebar's two lists

    The options of the region selector (line 68) and its default
    (line 72), as [sidebar] computes them. *)

Definition all_regions (ts : TS.df) : list string :=
  sorted (Pd.unique (map TS.Wilayah ts)).

Definition default_regions (spk : SPK.df) : list string :=
  Pd.head 5 (map SPK.Wilayah (sort_values_Ranking spk)).

(** Strict code-point order on region names. *)
Definition name_lt (a b : string) : Prop := String.ltb a b = true.

(** Whether every default of the region selector is one of its
    options. *)
Definition defaults_offered (fr : frames) : bool :=
  forallb (fun d => existsb (String.eqb d) (all_regions (df_ts fr)))
    (default_regions (df_spk fr)).

(** How the sidebar can go, with what it leaves for the rest of the
    page. *)
Inductive sidebar_case (fr : frames) : Type :=
| Rejected_default (H : defaults_offered fr = false)
| Empty_ts (H : defaults_offered fr = true) (E : df_ts fr = [])
| Rejected_bounds (lo hi : Z) (H : defaults_offered fr = true)
    (Hlo : Pd.min_int (map TS.Tahun (df_ts fr)) = Some lo)
    (Hhi : Pd.max_int (map TS.Tahun (df_ts fr)) = Some hi)
    (Hlt : slider_accepts lo hi = false)
| Passed (lo hi : Z) (H : defaults_offered fr = true)
    (Hlo : Pd.min_int (map TS.Tahun (df_ts fr)) = Some lo)
    (Hhi : Pd.max_int (map TS.Tahun (df_ts fr)) = Some hi)
    (Hlt : slider_accepts lo hi = true).

(** How a run ends, read off the two files alone. *)
Definition expected_outcome (d : disk) : outcome unit :=
  match data_timeseries_bansos_jabar_csv d, hasil_spk_topsis_csv d with
  | Some ts, Some spk =>
      if defaults_offered {| df_ts := ts; df_spk := spk |}
      then
        match Pd.min_int (map TS.Tahun ts), Pd.max_int (map TS.Tahun ts) with
        | Some lo, Some hi =>
            if slider_accepts lo hi
            then match rank1_rows spk with
                 | [] => Raise IndexError
                 | _ :: _ => if sizes_drawable spk then Ok tt else Raise ValueError
                 end
            else Raise StreamlitAPIException
        | _, _ => Raise ValueError
        end
      else Raise StreamlitAPIException
  | _, _ => Stopped
  end.

(** ** Texts that read back

    A field the writer leaves unquoted must hold no carriage return to
    come back whole.  A region name comes back when it is none of the
    reader's missing-value markers, the empty text among them, and its
    column stays text; a number cell when the reader's conversion undoes
    the printing. *)







(** * Properties *)

(** ** The sidebar filter *)

Lemma existsb_eqb_In (x : string) (R : list string) :
  existsb (String.eqb x) R = true <-> In x R.
Proof.
  rewrite existsb_exists. split.
  - intros [y [Hy E]]. apply String.eqb_eq in E. now subst.
  - intros H. exists x. split; [exact H | apply String.eqb_refl].
Qed.

Lemma in_filterb_spec R lo hi r :
  in_filterb R lo hi r = true
  <-> In (TS.Wilayah r) R /\ lo <= TS.Tahun r <= hi.
Proof.
  unfold in_filterb.
  rewrite !andb_true_iff, existsb_eqb_In, !Z.leb_le. tauto.
Qed.

(** The three masks and the boolean indexing amount to one pass of
    [filter] over the rows: order and repetitions are those of the
    table. *)
Lemma df_ts_filtered_filter (ts : TS.df) (w : widgets) :
  df_ts_filtered ts w
  = filter (in_filterb (selected_regions w)
              (fst (selected_years w)) (snd (selected_years w))) ts.
Proof.
  unfold df_ts_filtered, Pd.isin, Pd.ge_mask, Pd.le_mask.
  induction ts as [|r rs IH]; [reflexivity|].
  cbn [map Pd.and_mask Pd.getitem filter].
  rewrite IH. reflexivity.
Qed.

(** C1. The filtered table holds exactly the rows of the time-series
    table whose [Wilayah] is one of the selected regions and whose
    [Tahun] lies in the inclusive slider range, and no other row. *)
Theorem C1_filter_exact (ts : TS.df) (R : list string) (lo hi : Z) (r : TS.row) :
  In r (df_ts_filtered ts {| selected_regions := R; selected_years := (lo, hi) |})
  <-> In r ts /\ In (TS.Wilayah r) R /\ lo <= TS.Tahun r <= hi.
Proof.
  rewrite df_ts_filtered_filter, filter_In, in_filterb_spec.
  reflexivity.
Qed.

(** ** Computations that leave the store alone *)

Section ReadOnly.
Context {S : Type}.

Lemma read_only_ret {A} (a : A) : read_only (@ret S A a).
Proof. intro s. reflexivity. Qed.

Lemma read_only_raise {A} (e : exn) : read_only (@raise S A e).
Proof. intro s. reflexivity. Qed.

Lemma read_only_emit (e : event) : read_only (@emit S e).
Proof. intro s. reflexivity. Qed.

Lemma read_only_gets {A} (f : S -> A) : read_only (gets f).
Proof. intro s. reflexivity. Qed.

Lemma read_only_bind {A B} (m : M S A) (k : A -> M S B) :
  read_only m -> (forall a, read_only (k a)) -> read_only (bind m k).
Proof.
  intros Hm Hk s. unfold bind, store_of.
  specialize (Hm s). unfold store_of in Hm.
  destruct (m s) as [[[a | e | ] s1] l1]; cbn in Hm; subst s1; cbn; trivial.
  specialize (Hk a s). unfold store_of in Hk.
  destruct (k a s) as [[r s2] l2]. cbn in *. exact Hk.
Qed.

Lemma read_only_try_except {A} (body handler : M S A) (E : exn) :
  read_only body -> read_only handler -> read_only (try_except body E handler).
Proof.
  intros Hb Hh s. unfold try_except, store_of.
  specialize (Hb s). unfold store_of in Hb.
  destruct (body s) as [[[a | e | ] s1] l1]; cbn in Hb; subst s1; cbn; trivial.
  destruct (exn_eqb e E); cbn; trivial.
  specialize (Hh s). unfold store_of in Hh.
  destruct (handler s) as [[r s2] l2]. cbn in *. exact Hh.
Qed.

Lemma read_only_py_int (x : option Z) : read_only (@py_int S x).
Proof. destruct x; [apply read_only_ret | apply read_only_raise]. Qed.

Lemma read_only_values0 {A} (a : list A) : read_only (@values0 S A a).
Proof. destruct a; [apply read_only_raise | apply read_only_ret]. Qed.

Lemma read_only_idxmin (s : list Q) : read_only (@idxmin S s).
Proof. destruct s; [apply read_only_raise | apply read_only_ret]. Qed.

Lemma read_only_loc_Wilayah (df : SPK.df) (i : nat) : read_only (@loc_Wilayah S df i).
Proof.
  unfold loc_Wilayah. destruct (nth_error df i);
    [apply read_only_ret | apply read_only_raise].
Qed.

(** A method that changes its receiver writes the store of the block
    it is called in, but only the object's part of it. *)
Lemma in_place_writes {O} (f : O -> O) (s : S) (o : O) :
  store_of (in_place f (s, o)) = (s, f o).
Proof. reflexivity. Qed.

Lemma own_object_only_in_place {O} (f : O -> O) : own_object_only (@in_place S O f).
Proof. intros [s o]. reflexivity. Qed.

Lemma own_object_only_read_only {O A} (m : M (S * O) A) :
  read_only m -> own_object_only m.
Proof. intros H so. now rewrite H. Qed.

Lemma own_object_only_bind {O A B} (m : M (S * O) A) (k : A -> M (S * O) B) :
  own_object_only m -> (forall a, own_object_only (k a)) -> own_object_only (bind m k).
Proof.
  intros Hm Hk so. unfold bind, store_of.
  specialize (Hm so). unfold store_of in Hm.
  destruct (m so) as [[[a | e | ] s1] l1]; cbn in Hm; cbn; trivial.
  specialize (Hk a s1). unfold store_of in Hk.
  destruct (k a s1) as [[r s2] l2]. cbn in *. congruence.
Qed.

(** The object is dropped with the block: what is left is the store. *)
Lemma read_only_with_object {O A} (o : O) (m : M (S * O) A) :
  own_object_only m -> read_only (with_object o m).
Proof.
  intros Hm s. unfold with_object, store_of.
  specialize (Hm (s, o)). unfold store_of in Hm.
  destruct (m (s, o)) as [[r so] l]. cbn in *. exact Hm.
Qed.
End ReadOnly.

Create HintDb ro.
#[local] Hint Resolve read_only_ret read_only_raise read_only_emit read_only_gets
  read_only_py_int read_only_values0 read_only_idxmin read_only_loc_Wilayah
  own_object_only_in_place : ro.

Ltac read_only_steps :=
  repeat first
    [ solve [auto with ro]
    | apply read_only_bind; [| intro]
    | apply read_only_with_object
    | apply own_object_only_bind; [| intro]
    | solve [apply own_object_only_read_only; unfold this; auto with ro]
    | progress cbv zeta
    | match goal with |- read_only (if ?b then _ else _) => destruct b end ].

Lemma read_only_sort_values : read_only sort_values.
Proof. unfold sort_values. read_only_steps. Qed.

Lemma read_only_st_multiselect {S : Type} label options default sel :
  read_only (@st_multiselect S label options default sel).
Proof. unfold st_multiselect. read_only_steps. Qed.

Lemma read_only_st_slider {S : Type} label lo hi v sel :
  read_only (@st_slider S label lo hi v sel).
Proof. unfold st_slider. read_only_steps. Qed.

Lemma read_only_px_scatter_sized {S : Type} df : read_only (@px_scatter_sized S df).
Proof. unfold px_scatter_sized. read_only_steps. Qed.

#[local] Hint Resolve read_only_sort_values read_only_st_multiselect
  read_only_st_slider read_only_px_scatter_sized : ro.

Lemma read_only_sidebar w : read_only (sidebar w).
Proof. unfold sidebar. read_only_steps. Qed.

Lemma read_only_kpis y : read_only (kpis y).
Proof. only_used. unfold kpis, top_region, top_score, stable_region. read_only_steps. Qed.

Lemma read_only_trend w f : read_only (trend w f).
Proof. only_used. unfold trend. read_only_steps. Qed.

Lemma read_only_ranking_chart : read_only ranking_chart.
Proof. unfold ranking_chart. read_only_steps. Qed.

Lemma read_only_quadrant : read_only quadrant.
Proof. only_used. unfold quadrant. read_only_steps. Qed.

Lemma read_only_detail : read_only detail.
Proof. only_used. unfold detail. read_only_steps. Qed.

Lemma read_only_footer : read_only footer.
Proof. only_used. unfold footer. read_only_steps. Qed.

#[local] Hint Resolve read_only_sidebar read_only_kpis read_only_trend
  read_only_ranking_chart read_only_quadrant read_only_detail read_only_footer : ro.

Lemma read_only_page w : read_only (page w).
Proof. unfold page. read_only_steps. Qed.

Lemma read_only_load_data : read_only load_data.
Proof.
  unfold load_data. apply read_only_try_except.
  - apply read_only_bind; [| intro; apply read_only_bind; [| intro; apply read_only_ret]];
      intro d; unfold read_csv, store_of;
      match goal with |- context [match ?x with _ => _ end] => destruct x end;
      reflexivity.
  - read_only_steps.
Qed.

Lemma session_fixed (fr : frames) (ws : list widgets) : session fr ws = fr.
Proof.
  induction ws as [|w ws IH]; [reflexivity|].
  cbn [session].
  pose proof (read_only_page w fr) as H. unfold store_of in H.
  destruct (page w fr) as [[r fr'] l]. cbn in H. subst fr'. exact IH.
Qed.

(** C9. No part of a run changes the two loaded tables.  A run does
    write: the figures and the Styler it makes are changed in place by
    their methods, and a table can be written too, as sorting in place
    would.  But the script sorts into a new table, its in-place calls
    all have a figure or the Styler as receiver, and the filter, the
    KPIs, the charts, the detail table and the export only read the two
    tables; so after a run, and after any sequence of interactions,
    both are as [load_data] returned them. *)
Theorem C9_tables_never_mutated :
  (forall w, read_only (sidebar w)) /\
  (forall y, read_only (kpis y)) /\
  (forall w f, read_only (trend w f)) /\
  read_only ranking_chart /\ read_only quadrant /\ read_only detail /\
  (forall w, read_only (page w)) /\
  (forall (ts : TS.df) (spk : SPK.df) (ws : list widgets),
     let d := {| data_timeseries_bansos_jabar_csv := Some ts;
                 hasil_spk_topsis_csv := Some spk |} in
     outcome_of (load_data d) = Ok (Some ts, Some spk) /\
     session {| df_ts := ts; df_spk := spk |} ws = {| df_ts := ts; df_spk := spk |}) /\
  (forall (fr : frames) (fig : figure) (y : option Q),
     store_of (in_place (fun fig => add_hline fig y) (fr, fig)) = (fr, add_hline fig y)) /\
  ~ read_only (@in_place frames figure update_layout_yaxis_reversed) /\
  ~ read_only sort_values_inplace.
Proof.
  repeat split; auto with ro.
  - apply read_only_page.
  - apply session_fixed.
  - intros H.
    specialize (H ({| df_ts := []; df_spk := [] |}, px_bar [])).
    discriminate H.
  - intros H.
    specialize (H {| df_ts := []; df_spk := spk_tie |}).
    unfold sort_values_inplace, puts, store_of in H. cbn [fst snd df_ts df_spk] in H.
    injection H as H.
    pose proof (sort_sorted sort_values_Ranking spk_tie) as Hs.
    rewrite H in Hs. unfold spk_tie in Hs.
    apply StronglySorted_inv in Hs. destruct Hs as [_ Hs].
    apply Forall_inv in Hs. unfold rank_le in Hs. cbn in Hs. lia.
Qed.

Lemma rank1_rows_filter spk :
  rank1_rows spk = filter (fun r => SPK.Ranking r =? 1) spk.
Proof.
  unfold rank1_rows, Pd.eq_mask.
  induction spk as [|r rs IH]; [reflexivity|].
  cbn [map Pd.getitem filter]. rewrite IH. reflexivity.
Qed.

Lemma sidebar_rejected_default w fr :
  defaults_offered fr = false ->
  sidebar w fr = (Raise StreamlitAPIException, fr, sidebar_head_log fr).
Proof.
  intros H.
  cbv beta iota zeta delta [sidebar bind emit gets sort_values ret st_multiselect].
  unfold defaults_offered, all_regions, default_regions in H.
  rewrite H. reflexivity.
Qed.

Lemma sidebar_empty w fr :
  defaults_offered fr = true -> df_ts fr = [] ->
  sidebar w fr = (Raise ValueError, fr, sidebar_head_log fr).
Proof.
  intros H E.
  cbv beta iota zeta delta [sidebar bind emit gets sort_values ret st_multiselect].
  unfold defaults_offered, all_regions, default_regions in H.
  rewrite H. cbv beta iota zeta.
  assert (Hmin : Pd.min_int (map TS.Tahun (df_ts fr)) = None) by now rewrite E.
  rewrite Hmin. reflexivity.
Qed.

Lemma sidebar_rejected_bounds w fr lo hi :
  defaults_offered fr = true ->
  Pd.min_int (map TS.Tahun (df_ts fr)) = Some lo ->
  Pd.max_int (map TS.Tahun (df_ts fr)) = Some hi ->
  slider_accepts lo hi = false ->
  sidebar w fr
  = (Raise StreamlitAPIException, fr, sidebar_head_log fr ++ [slider_call lo hi]).
Proof.
  intros H Hlo Hhi Hlt.
  cbv beta iota zeta delta [sidebar bind emit gets sort_values ret st_multiselect].
  unfold defaults_offered, all_regions, default_regions in H.
  rewrite H. cbv beta iota zeta.
  rewrite Hlo. cbv beta iota zeta delta [py_int ret].
  rewrite Hhi. cbv beta iota zeta delta [st_slider bind emit raise].
  rewrite Hlt. reflexivity.
Qed.

Lemma sidebar_run w fr lo hi :
  defaults_offered fr = true ->
  Pd.min_int (map TS.Tahun (df_ts fr)) = Some lo ->
  Pd.max_int (map TS.Tahun (df_ts fr)) = Some hi ->
  slider_accepts lo hi = true ->
  sidebar w fr = (Ok hi, fr, sidebar_log fr lo hi).
Proof.
  intros H Hlo Hhi Hlt.
  cbv beta iota zeta delta [sidebar bind emit gets sort_values ret st_multiselect].
  unfold defaults_offered, all_regions, default_regions in H.
  rewrite H. cbv beta iota zeta.
  rewrite Hlo. cbv beta iota zeta delta [py_int ret].
  rewrite Hhi. cbv beta iota zeta delta [st_slider bind emit ret].
  rewrite Hlt. reflexivity.
Qed.


(** ** Reductions of a column *)

Lemma fold_max_spec (s : list Z) (x : Z) :
  let m := fold_left Z.max s x in
  (m = x \/ In m s) /\ x <= m /\ forall y, In y s -> y <= m.
Proof.
  revert x. induction s as [|a s IH]; intro x; cbn.
  - repeat split; [now left | lia | tauto].
  - destruct (IH (Z.max x a)) as [Hin [Hle Hall]].
    repeat split.
    + destruct Hin as [E | Hin]; [| now right; right].
      rewrite E. destruct (Z.max_spec x a) as [[_ ->] | [_ ->]]; auto.
    + lia.
    + intros y [<- | Hy]; [lia | auto].
Qed.

Lemma fold_min_spec (s : list Z) (x : Z) :
  let m := fold_left Z.min s x in
  (m = x \/ In m s) /\ m <= x /\ forall y, In y s -> m <= y.
Proof.
  revert x. induction s as [|a s IH]; intro x; cbn.
  - repeat split; [now left | lia | tauto].
  - destruct (IH (Z.min x a)) as [Hin [Hle Hall]].
    repeat split.
    + destruct Hin as [E | Hin]; [| now right; right].
      rewrite E. destruct (Z.min_spec x a) as [[_ ->] | [_ ->]]; auto.
    + lia.
    + intros y [<- | Hy]; [lia | auto].
Qed.

(** [max()] of a non-empty integer column is its greatest value. *)
Lemma max_int_spec (s : list Z) (m : Z) :
  Pd.max_int s = Some m <-> In m s /\ forall y, In y s -> y <= m.
Proof.
  destruct s as [|x s]; cbn.
  - split; [discriminate | intros [[] _]].
  - pose proof (fold_max_spec s x) as [Hin [Hle Hall]]. split.
    + intros E. injection E as <-. split.
      * destruct Hin as [-> | Hin]; auto.
      * intros y [<- | Hy]; auto.
    + intros [Hm Hub]. f_equal.
      apply Z.le_antisymm.
      * destruct Hin as [-> | Hin]; apply Hub; auto.
      * destruct Hm as [<- | Hm]; auto.
Qed.

Lemma min_int_some (s : list Z) : s <> [] -> exists lo, Pd.min_int s = Some lo.
Proof. destruct s; [congruence | intros _; eexists; reflexivity]. Qed.

Lemma max_int_some (s : list Z) : s <> [] -> exists hi, Pd.max_int s = Some hi.
Proof. destruct s; [congruence | intros _; eexists; reflexivity]. Qed.

Lemma qmin_le_l (a b : Q) : (Pd.qmin a b <= a)%Q.
Proof.
  unfold Pd.qmin. destruct (Qle_bool a b) eqn:E; [apply Qle_refl|].
  destruct (Qlt_le_dec a b) as [H | H]; [| exact H].
  apply Qlt_le_weak, Qle_bool_iff in H. congruence.
Qed.

Lemma Qle_bool_false (a b : Q) : Qle_bool a b = false -> (b < a)%Q.
Proof.
  intros E. destruct (Qlt_le_dec b a) as [H | H]; [exact H|].
  apply Qle_bool_iff in H. congruence.
Qed.

(** [idxmin] walks the column once and keeps the first position of the
    least value; [min] keeps the value found there. *)
Lemma argmin_from_spec (s : list Q) :
  forall (best : nat) (v : Q) (i : nat),
    let k := argmin_from best v i s in
    let m := fold_left Pd.qmin s v in
    (m <= v)%Q /\
    (forall x, In x s -> (m <= x)%Q) /\
    ((k = best /\ m = v) \/
     (exists j, k = (i + j)%nat /\ nth_error s j = Some m /\ (m < v)%Q /\
                forall j' x, (j' < j)%nat -> nth_error s j' = Some x -> (m < x)%Q)).
Proof.
  only_used.
  induction s as [|x s IH]; intros best v i; cbn zeta.
  - cbn. split; [apply Qle_refl|]. split; [tauto | now left].
  - cbn [argmin_from fold_left].
    destruct (Qle_bool v x) eqn:E.
    + assert (Hq : Pd.qmin v x = v) by (unfold Pd.qmin; now rewrite E).
      rewrite Hq. apply Qle_bool_iff in E.
      destruct (IH best v (S i)) as [Hv [Hall Hk]].
      split; [exact Hv|]. split.
      * intros y [<- | Hy]; [eapply Qle_trans; eauto | auto].
      * destruct Hk as [Hk | [j [Hk [Hn [Hlt Hbefore]]]]]; [now left|].
        right. exists (S j). repeat split; [lia | exact Hn | exact Hlt |].
        intros [|j'] y Hj Hy; cbn in Hy.
        -- injection Hy as <-. eapply Qlt_le_trans; eauto.
        -- apply (Hbefore j'); [lia | exact Hy].
    + assert (Hq : Pd.qmin v x = x) by (unfold Pd.qmin; now rewrite E).
      rewrite Hq. apply Qle_bool_false in E.
      destruct (IH i x (S i)) as [Hv [Hall Hk]].
      split; [apply Qlt_le_weak; eapply Qle_lt_trans; eauto|]. split.
      * intros y [<- | Hy]; auto.
      * right. destruct Hk as [[Hk Hm] | [j [Hk [Hn [Hlt Hbefore]]]]].
        -- exists 0%nat. rewrite Hm. repeat split; [lia | exact E |].
           intros j' y Hj. lia.
        -- exists (S j). repeat split; [lia | exact Hn | eapply Qlt_trans; eauto |].
           intros [|j'] y Hj Hy; cbn in Hy.
           ++ injection Hy as <-. exact Hlt.
           ++ apply (Hbefore j'); [lia | exact Hy].
Qed.

(** The row [idxmin] and [loc] pick from a non-empty ranking table. *)
Lemma stable_row_exists (spk : SPK.df) :
  spk <> [] ->
  exists (i : nat) (r : SPK.row),
    nth_error spk i = Some r /\
    (forall (S : Type) (s : S), stable_region spk s = (Ok (SPK.Wilayah r), s, [])) /\
    stable_value spk = Some (SPK.C4_Stabilitas r) /\
    (forall r', In r' spk -> (SPK.C4_Stabilitas r <= SPK.C4_Stabilitas r')%Q) /\
    (forall j r', (j < i)%nat -> nth_error spk j = Some r' ->
                  (SPK.C4_Stabilitas r < SPK.C4_Stabilitas r')%Q).
Proof.
  destruct spk as [|r0 rest]; [congruence | intros _].
  pose proof (argmin_from_spec (map SPK.C4_Stabilitas rest) 0 (SPK.C4_Stabilitas r0) 1)
    as [Hv [Hall Hk]]. cbn zeta in Hk.
  destruct Hk as [[Hk Hm] | [j [Hk [Hn [Hlt Hbefore]]]]].
  - exists 0%nat, r0. repeat split.
    + intros S s. unfold stable_region, bind, idxmin, ret. cbn [map].
      rewrite Hk. reflexivity.
    + unfold stable_value, Pd.min_num. cbn [map]. now rewrite Hm.
    + intros r' [<- | Hr']; [apply Qle_refl|].
      rewrite <- Hm. apply Hall, in_map, Hr'.
    + intros j r' Hj. lia.
  - rewrite nth_error_map in Hn.
    destruct (nth_error rest j) as [r|] eqn:Hr; [| discriminate].
    cbn in Hn. injection Hn as Hn.
    exists (S j), r. repeat split.
    + exact Hr.
    + intros S s. unfold stable_region, bind, idxmin, ret. cbn [map].
      rewrite Hk. unfold loc_Wilayah. cbn [Nat.add nth_error]. rewrite Hr. reflexivity.
    + unfold stable_value, Pd.min_num. cbn [map]. now rewrite Hn.
    + rewrite Hn. intros r' [<- | Hr']; [exact Hv | apply Hall, in_map, Hr'].
    + rewrite Hn. intros [|j'] r' Hj Hr'; cbn in Hr'.
      * injection Hr' as <-. exact Hlt.
      * apply (Hbefore j'); [lia|]. rewrite nth_error_map, Hr'. reflexivity.
Qed.

(** C8. On a non-empty ranking table the most-stable KPI names the row
    with the least [C4_Stabilitas], the first such row in table order
    when several tie, and the value it shows is that least value. *)
Theorem C8_most_stable_first_minimum (spk : SPK.df) (S : Type) (s : S) :
  spk <> [] ->
  exists (i : nat) (r : SPK.row),
    nth_error spk i = Some r /\
    stable_region spk s = (Ok (SPK.Wilayah r), s, []) /\
    stable_value spk = Some (SPK.C4_Stabilitas r) /\
    (forall r', In r' spk -> (SPK.C4_Stabilitas r <= SPK.C4_Stabilitas r')%Q) /\
    (forall j r', (j < i)%nat -> nth_error spk j = Some r' ->
                  (SPK.C4_Stabilitas r < SPK.C4_Stabilitas r')%Q).
Proof.
  intros Hne.
  destruct (stable_row_exists spk Hne) as [i [r [Hi [Hreg H]]]].
  exists i, r. split; [exact Hi|]. split; [apply Hreg | exact H].
Qed.

(** ** Runs of the KPI section and of the page *)

Lemma top_region_rank1 (spk : SPK.df) (S : Type) :
  @top_region S spk = values0 (map SPK.Wilayah (rank1_rows spk)).
Proof. reflexivity. Qed.

Lemma top_score_rank1 (spk : SPK.df) (S : Type) :
  @top_score S spk = values0 (map SPK.Skor_TOPSIS (rank1_rows spk)).
Proof. reflexivity. Qed.

Lemma rank1_rows_nonempty spk r rest : rank1_rows spk = r :: rest -> spk <> [].
Proof. intros H E. subst spk. discriminate H. Qed.

Lemma kpis_no_rank1 y fr :
  rank1_rows (df_spk fr) = [] ->
  kpis y fr = (Raise IndexError, fr, kpi_head_log fr y).
Proof.
  intros H.
  cbv beta iota zeta delta [kpis bind emit gets].
  rewrite top_region_rank1, H. reflexivity.
Qed.

Lemma kpis_ok y fr best rest :
  rank1_rows (df_spk fr) = best :: rest ->
  exists stable,
    In stable (df_spk fr) /\
    stable_region (df_spk fr) fr = (Ok (SPK.Wilayah stable), fr, []) /\
    kpis y fr = (Ok tt, fr, kpi_head_log fr y ++ kpi_tail_log fr best stable).
Proof.
  intros H.
  destruct (stable_row_exists (df_spk fr) (rank1_rows_nonempty _ _ _ H))
    as [i [stable [Hi [Hreg _]]]].
  exists stable. split; [eapply nth_error_In; eauto|]. split; [apply Hreg|].
  cbv beta iota zeta delta [kpis bind emit gets].
  rewrite top_region_rank1, H.
  cbv beta iota zeta delta [values0 ret map].
  rewrite top_score_rank1, H.
  cbv beta iota zeta delta [values0 ret map].
  rewrite Hreg. reflexivity.
Qed.

Lemma lower_run fr :
  sizes_drawable (df_spk fr) = true ->
  (ranking_chart ;; quadrant ;; detail ;; footer) fr = (Ok tt, fr, lower_log fr).
Proof.
  intros H.
  cbv beta iota zeta delta [ranking_chart quadrant bind emit gets sort_values ret
                            with_object in_place puts this px_scatter_sized fst snd].
  rewrite H. reflexivity.
Qed.

Lemma lower_refused fr :
  sizes_drawable (df_spk fr) = false ->
  (ranking_chart ;; quadrant ;; detail ;; footer) fr
  = (Raise ValueError, fr, charts_head_log fr).
Proof.
  intros H.
  cbv beta iota zeta delta [ranking_chart quadrant bind emit gets sort_values ret
                            with_object in_place puts this px_scatter_sized fst snd].
  rewrite H. reflexivity.
Qed.

Lemma trend_run w filtered fr :
  trend w filtered fr = (Ok tt, fr, trend_log w filtered).
Proof.
  unfold trend, trend_log, bind, emit.
  destruct (negb (Pd.empty filtered)); reflexivity.
Qed.

(** The table is shown under its display formats; the export is made
    from the table itself, without the index column. *)
Lemma detail_run fr :
  detail fr
  = (Ok tt, fr,
     [markdown "Berikut adalah hasil perhitungan lengkap matriks keputusan.";
      dataframe {| styled := df_spk fr; formats := detail_formats;
                   gradient_subset := ["Skor_TOPSIS"]; cmap := "Greens" |};
      download_button "Download Hasil Analisis (CSV)" (to_csv_utf8 (df_spk fr) false)
        "Laporan_SPK_Bansos_Jabar.csv" "text/csv"]).
Proof. reflexivity. Qed.

(** The ways a run of the page can go. *)
Lemma page_rejected_default w fr :
  defaults_offered fr = false ->
  page w fr = (Raise StreamlitAPIException, fr, sidebar_head_log fr).
Proof.
  intros H. unfold page. unfold bind at 1.
  rewrite (sidebar_rejected_default w fr H). reflexivity.
Qed.

Lemma page_empty_ts w fr :
  defaults_offered fr = true -> df_ts fr = [] ->
  page w fr = (Raise ValueError, fr, sidebar_head_log fr).
Proof.
  intros H E. unfold page. unfold bind at 1. rewrite (sidebar_empty w fr H E).
  reflexivity.
Qed.

Lemma page_rejected_bounds w fr lo hi :
  defaults_offered fr = true ->
  Pd.min_int (map TS.Tahun (df_ts fr)) = Some lo ->
  Pd.max_int (map TS.Tahun (df_ts fr)) = Some hi ->
  slider_accepts lo hi = false ->
  page w fr
  = (Raise StreamlitAPIException, fr, sidebar_head_log fr ++ [slider_call lo hi]).
Proof.
  intros H Hlo Hhi Hlt. unfold page. unfold bind at 1.
  rewrite (sidebar_rejected_bounds w fr lo hi H Hlo Hhi Hlt). reflexivity.
Qed.

Lemma page_no_rank1 w fr lo hi :
  defaults_offered fr = true ->
  Pd.min_int (map TS.Tahun (df_ts fr)) = Some lo ->
  Pd.max_int (map TS.Tahun (df_ts fr)) = Some hi ->
  slider_accepts lo hi = true ->
  rank1_rows (df_spk fr) = [] ->
  page w fr = (Raise IndexError, fr, sidebar_log fr lo hi ++ kpi_head_log fr hi).
Proof.
  intros H Hlo Hhi Hlt H1. unfold page. unfold bind at 1.
  rewrite (sidebar_run w fr lo hi H Hlo Hhi Hlt).
  unfold bind at 1. cbv beta iota zeta delta [gets].
  unfold bind at 1. rewrite (kpis_no_rank1 hi fr H1).
  reflexivity.
Qed.

Lemma page_ok w fr lo hi best rest :
  defaults_offered fr = true ->
  Pd.min_int (map TS.Tahun (df_ts fr)) = Some lo ->
  Pd.max_int (map TS.Tahun (df_ts fr)) = Some hi ->
  slider_accepts lo hi = true ->
  rank1_rows (df_spk fr) = best :: rest ->
  sizes_drawable (df_spk fr) = true ->
  exists stable,
    In stable (df_spk fr) /\
    stable_region (df_spk fr) fr = (Ok (SPK.Wilayah stable), fr, []) /\
    page w fr =
      (Ok tt, fr,
       sidebar_log fr lo hi ++ kpi_head_log fr hi ++ kpi_tail_log fr best stable
       ++ trend_log w (df_ts_filtered (df_ts fr) w) ++ lower_log fr).
Proof.
  intros H Hlo Hhi Hlt H1 Hsz.
  destruct (kpis_ok hi fr best rest H1) as [stable [Hin [Hreg Hk]]].
  exists stable. split; [exact Hin|]. split; [exact Hreg|].
  unfold page. unfold bind at 1.
  rewrite (sidebar_run w fr lo hi H Hlo Hhi Hlt).
  unfold bind at 1. cbv beta iota zeta delta [gets].
  unfold bind at 1. rewrite Hk.
  unfold bind at 1. rewrite trend_run.
  change (bind ranking_chart (fun _ => bind quadrant (fun _ => bind detail (fun _ => footer))))
    with (ranking_chart ;; quadrant ;; detail ;; footer).
  rewrite (lower_run fr Hsz).
  cbn [List.app]. rewrite <- !app_assoc. reflexivity.
Qed.

Lemma page_refused w fr lo hi best rest :
  defaults_offered fr = true ->
  Pd.min_int (map TS.Tahun (df_ts fr)) = Some lo ->
  Pd.max_int (map TS.Tahun (df_ts fr)) = Some hi ->
  slider_accepts lo hi = true ->
  rank1_rows (df_spk fr) = best :: rest ->
  sizes_drawable (df_spk fr) = false ->
  exists stable,
    In stable (df_spk fr) /\
    stable_region (df_spk fr) fr = (Ok (SPK.Wilayah stable), fr, []) /\
    page w fr =
      (Raise ValueError, fr,
       sidebar_log fr lo hi ++ kpi_head_log fr hi ++ kpi_tail_log fr best stable
       ++ trend_log w (df_ts_filtered (df_ts fr) w) ++ charts_head_log fr).
Proof.
  intros H Hlo Hhi Hlt H1 Hsz.
  destruct (kpis_ok hi fr best rest H1) as [stable [Hin [Hreg Hk]]].
  exists stable. split; [exact Hin|]. split; [exact Hreg|].
  unfold page. unfold bind at 1.
  rewrite (sidebar_run w fr lo hi H Hlo Hhi Hlt).
  unfold bind at 1. cbv beta iota zeta delta [gets].
  unfold bind at 1. rewrite Hk.
  unfold bind at 1. rewrite trend_run.
  change (bind ranking_chart (fun _ => bind quadrant (fun _ => bind detail (fun _ => footer))))
    with (ranking_chart ;; quadrant ;; detail ;; footer).
  rewrite (lower_refused fr Hsz).
  cbn [List.app]. rewrite <- !app_assoc. reflexivity.
Qed.

Lemma sidebar_cases (fr : frames) : sidebar_case fr.
Proof.
  destruct (defaults_offered fr) eqn:H; [| now apply Rejected_default].
  destruct (Pd.min_int (map TS.Tahun (df_ts fr))) as [lo|] eqn:Hlo.
  - destruct (Pd.max_int (map TS.Tahun (df_ts fr))) as [hi|] eqn:Hhi.
    + destruct (slider_accepts lo hi) eqn:Hlt;
        [eapply Passed | eapply Rejected_bounds]; eauto.
    + apply Empty_ts; [exact H|].
      destruct (df_ts fr); [reflexivity | discriminate Hhi].
  - apply Empty_ts; [exact H|].
    destruct (df_ts fr); [reflexivity | discriminate Hlo].
Qed.

(** The runs of the page, case by case. *)
Lemma page_cases (w : widgets) (fr : frames) :
  (sidebar w fr = (Raise StreamlitAPIException, fr, sidebar_head_log fr) /\
   page w fr = (Raise StreamlitAPIException, fr, sidebar_head_log fr)) \/
  (sidebar w fr = (Raise ValueError, fr, sidebar_head_log fr) /\
   page w fr = (Raise ValueError, fr, sidebar_head_log fr)) \/
  (exists lo hi,
     sidebar w fr
     = (Raise StreamlitAPIException, fr, sidebar_head_log fr ++ [slider_call lo hi]) /\
     page w fr
     = (Raise StreamlitAPIException, fr, sidebar_head_log fr ++ [slider_call lo hi])) \/
  (exists lo hi,
     rank1_rows (df_spk fr) = [] /\
     Pd.max_int (map TS.Tahun (df_ts fr)) = Some hi /\
     sidebar w fr = (Ok hi, fr, sidebar_log fr lo hi) /\
     page w fr = (Raise IndexError, fr, sidebar_log fr lo hi ++ kpi_head_log fr hi)) \/
  (exists lo hi best rest stable,
     rank1_rows (df_spk fr) = best :: rest /\
     sizes_drawable (df_spk fr) = false /\
     Pd.max_int (map TS.Tahun (df_ts fr)) = Some hi /\
     sidebar w fr = (Ok hi, fr, sidebar_log fr lo hi) /\
     page w fr =
       (Raise ValueError, fr,
        sidebar_log fr lo hi ++ kpi_head_log fr hi ++ kpi_tail_log fr best stable
        ++ trend_log w (df_ts_filtered (df_ts fr) w) ++ charts_head_log fr)) \/
  (exists lo hi best rest stable,
     rank1_rows (df_spk fr) = best :: rest /\
     sizes_drawable (df_spk fr) = true /\
     Pd.max_int (map TS.Tahun (df_ts fr)) = Some hi /\
     sidebar w fr = (Ok hi, fr, sidebar_log fr lo hi) /\
     page w fr =
       (Ok tt, fr,
        sidebar_log fr lo hi ++ kpi_head_log fr hi ++ kpi_tail_log fr best stable
        ++ trend_log w (df_ts_filtered (df_ts fr) w) ++ lower_log fr)).
Proof.
  destruct (sidebar_cases fr) as [H | H E | lo hi H Hlo Hhi Hlt | lo hi H Hlo Hhi Hlt].
  - left. split; [now apply sidebar_rejected_default | now apply page_rejected_default].
  - right. left. split; [now apply sidebar_empty | now apply page_empty_ts].
  - right. right. left. exists lo, hi.
    split; [now apply sidebar_rejected_bounds | now apply page_rejected_bounds].
  - right. right. right.
    pose proof (sidebar_run w fr lo hi H Hlo Hhi Hlt) as Hs.
    destruct (rank1_rows (df_spk fr)) as [|best rest] eqn:H1.
    + left. exists lo, hi. split; [reflexivity|]. split; [exact Hhi|].
      split; [exact Hs|]. now apply page_no_rank1.
    + right. destruct (sizes_drawable (df_spk fr)) eqn:Hsz.
      * right.
        destruct (page_ok w fr lo hi best rest H Hlo Hhi Hlt H1 Hsz) as [stable [_ [_ Hp]]].
        exists lo, hi, best, rest, stable.
        split; [reflexivity|]. split; [reflexivity|].
        split; [exact Hhi|]. split; [exact Hs | exact Hp].
      * left.
        destruct (page_refused w fr lo hi best rest H Hlo Hhi Hlt H1 Hsz)
          as [stable [_ [_ Hp]]].
        exists lo, hi, best, rest, stable.
        split; [reflexivity|]. split; [reflexivity|].
        split; [exact Hhi|]. split; [exact Hs | exact Hp].
Qed.

Ltac page_by_cases w fr Hs Hp :=
  let lo := fresh "lo" in let hi := fresh "hi" in
  let best := fresh "best" in let rest := fresh "rest" in
  let stable := fresh "stable" in
  let H1 := fresh "H1" in let Hhi := fresh "Hhi" in
  let Hsz := fresh "Hsz" in
  destruct (page_cases w fr)
    as [[Hs Hp] | [[Hs Hp] | [[lo [hi [Hs Hp]]]
       | [[lo [hi [H1 [Hhi [Hs Hp]]]]]
       | [[lo [hi [best [rest [stable [H1 [Hsz [Hhi [Hs Hp]]]]]]]]]
       | [lo [hi [best [rest [stable [H1 [Hsz [Hhi [Hs Hp]]]]]]]]]]]]]].

Lemma app_py_loaded ts spk w :
  let fr := {| df_ts := ts; df_spk := spk |} in
  app_py {| data_timeseries_bansos_jabar_csv := Some ts;
            hasil_spk_topsis_csv := Some spk |} w
  = (outcome_of (page w fr), preamble_log ++ log_of (page w fr)).
Proof.
  cbn zeta. unfold app_py.
  change ((preamble ;; load_data)
            {| data_timeseries_bansos_jabar_csv := Some ts;
               hasil_spk_topsis_csv := Some spk |})
    with (Ok (Some ts, Some spk),
          {| data_timeseries_bansos_jabar_csv := Some ts;
             hasil_spk_topsis_csv := Some spk |}, preamble_log).
  cbv beta iota.
  destruct (page w {| df_ts := ts; df_spk := spk |}) as [[r s] l].
  reflexivity.
Qed.

(** Splits membership in a run's log into one equation per logged call. *)
Ltac in_log H :=
  unfold sidebar_log, sidebar_head_log, slider_call, kpi_head_log, kpi_tail_log,
    trend_log, lower_log, charts_head_log, metric_stable, metric_best in H;
  try match type of H with
      | context [if negb ?b then _ else _] => destruct (negb b)
      end;
  repeat rewrite in_app_iff in H;
  cbn [In] in H;
  repeat match type of H with
         | _ \/ _ => destruct H as [H | H]
         | False => contradiction
         end.

(** ** The latest-year total *)



(** ** The rank-1 KPI *)

Lemma filter_head {A : Type} (p : A -> bool) (l : list A) (x : A) (rest : list A) :
  filter p l = x :: rest ->
  exists i, nth_error l i = Some x /\ p x = true /\
            forall j y, (j < i)%nat -> nth_error l j = Some y -> p y = false.
Proof.
  induction l as [|a l IH]; [discriminate|].
  cbn [filter]. destruct (p a) eqn:Ea.
  - intros E. injection E as -> _. exists 0%nat.
    repeat split; [exact Ea | intros j y Hj; lia].
  - intros E. destruct (IH E) as [i [Hi [Hp Hbefore]]].
    exists (S i). repeat split; [exact Hi | exact Hp |].
    intros [|j] y Hj Hy; cbn in Hy.
    + injection Hy as <-. exact Ea.
    + apply (Hbefore j); [lia | exact Hy].
Qed.

Lemma no_rank1_rows (spk : SPK.df) :
  (forall r, In r spk -> SPK.Ranking r <> 1) -> rank1_rows spk = [].
Proof.
  intros H. rewrite rank1_rows_filter.
  destruct (filter _ spk) as [|x rest] eqn:E; [reflexivity|].
  assert (Hx : In x (filter (fun r => SPK.Ranking r =? 1) spk))
    by (rewrite E; now left).
  apply filter_In in Hx. destruct Hx as [Hx Hr].
  apply Z.eqb_eq in Hr. now apply H in Hx.
Qed.

(** C5. When no row of the ranking table has [Ranking] 1 (an empty table
    included), the lookup of the best region raises [IndexError] and
    nothing catches it: a run that gets past the sidebar ends there,
    right after the second metric, with that exception, and no run
    completes. *)
Theorem C5_no_rank1_faults (ts : TS.df) (spk : SPK.df) (w : widgets) :
  (forall r, In r spk -> SPK.Ranking r <> 1) ->
  let fr := {| df_ts := ts; df_spk := spk |} in
  let d := {| data_timeseries_bansos_jabar_csv := Some ts;
              hasil_spk_topsis_csv := Some spk |} in
  (forall (S : Type) (s : S), top_region spk s = (Raise IndexError, s, [])) /\
  (forall max_year,
     outcome_of (sidebar w fr) = Ok max_year ->
     fst (app_py d w) = Raise IndexError /\
     snd (app_py d w)
     = preamble_log ++ log_of (sidebar w fr) ++ kpi_head_log fr max_year) /\
  (exists e, fst (app_py d w) = Raise e).
Proof.
  intros H fr d. apply no_rank1_rows in H. split.
  { intros S s. rewrite top_region_rank1, H. reflexivity. }
  subst d. rewrite app_py_loaded. cbn zeta. fold fr. cbn [fst snd].
  page_by_cases w fr Hs Hp; rewrite Hp, Hs; unfold log_of, outcome_of; cbn [fst snd];
    try (split; [intros y Hy; discriminate Hy | eexists; reflexivity]).
  - split; [| eexists; reflexivity].
    intros y Hy. injection Hy as <-. split; reflexivity.
  - change (df_spk fr) with spk in H1. congruence.
  - change (df_spk fr) with spk in H1. congruence.
Qed.

(** C10. With several rows of [Ranking] 1 the best-region KPI raises
    nothing: the two lookups return [Wilayah] and [Skor_TOPSIS] of the
    first of them in table order, and on every run that gets past the
    sidebar the KPI row completes and shows that row; the run itself
    completes when the bubble chart can be drawn. *)
Theorem C10_first_rank1_reported (ts : TS.df) (spk : SPK.df) (w : widgets) :
  (2 <= List.length (filter (fun r => (SPK.Ranking r =? 1)%Z) spk))%nat ->
  let fr := {| df_ts := ts; df_spk := spk |} in
  exists (i : nat) (best : SPK.row),
    nth_error spk i = Some best /\
    SPK.Ranking best = 1 /\
    (forall j r, (j < i)%nat -> nth_error spk j = Some r -> SPK.Ranking r <> 1) /\
    (forall (S : Type) (s : S), top_region spk s = (Ok (SPK.Wilayah best), s, [])) /\
    (forall (S : Type) (s : S), top_score spk s = (Ok (SPK.Skor_TOPSIS best), s, [])) /\
    (forall max_year,
       outcome_of (sidebar w fr) = Ok max_year ->
       outcome_of (kpis max_year fr) = Ok tt /\
       In (metric_best (SPK.Wilayah best) (SPK.Skor_TOPSIS best)) (log_of (page w fr)) /\
       (sizes_drawable spk = true -> outcome_of (page w fr) = Ok tt)).
Proof.
  intros Hlen fr.
  destruct (filter (fun r => SPK.Ranking r =? 1) spk) as [|first others] eqn:E;
    [cbn in Hlen; lia|].
  destruct (filter_head _ _ _ _ E) as [i [Hi [Hp Hbefore]]].
  exists i, first. rewrite <- rank1_rows_filter in E.
  split; [exact Hi|]. split; [now apply Z.eqb_eq|]. split.
  { intros j r Hj Hr. apply Z.eqb_neq. eapply Hbefore; eauto. }
  split; [intros S s; rewrite top_region_rank1, E; reflexivity|].
  split; [intros S s; rewrite top_score_rank1, E; reflexivity|].
  intros y Hy.
  assert (Hk : outcome_of (kpis y fr) = Ok tt).
  { destruct (kpis_ok y fr first others E) as [stable [_ [_ Hk]]]. now rewrite Hk. }
  split; [exact Hk|].
  page_by_cases w fr Hs Hpage; rewrite Hs in Hy; try discriminate Hy.
  - change (df_spk fr) with spk in H1. congruence.
  - change (df_spk fr) with spk in H1. rewrite E in H1. injection H1 as <- <-.
    rewrite Hpage. unfold log_of, outcome_of. cbn [fst snd]. split.
    + apply in_or_app. right. apply in_or_app. right. apply in_or_app. left.
      now left.
    + intros Hsz'. change (df_spk fr) with spk in Hsz. congruence.
  - change (df_spk fr) with spk in H1. rewrite E in H1. injection H1 as <- <-.
    rewrite Hpage. unfold log_of, outcome_of. cbn [fst snd]. split.
    + apply in_or_app. right. apply in_or_app. right. apply in_or_app. left.
      now left.
    + reflexivity.
Qed.

(** ** Missing input files *)

(** C7. When either CSV file is missing, [load_data] shows the error
    message and returns [(None, None)], and the script stops at line 57:
    the page holds the page set-up and that message, and no widget, KPI,
    chart or table. *)
Theorem C7_missing_file_halts (d : disk) (w : widgets) :
  data_timeseries_bansos_jabar_csv d = None \/ hasil_spk_topsis_csv d = None ->
  load_data d = (Ok (None, None), d, [error file_not_found_message]) /\
  app_py d w = (Stopped, preamble_log ++ [error file_not_found_message]).
Proof.
  destruct d as [[ts|] [spk|]]; cbn [data_timeseries_bansos_jabar_csv hasil_spk_topsis_csv];
    intros [H | H]; try discriminate H; split; reflexivity.
Qed.

(** ** The empty selection *)

Lemma filtered_empty_selection (ts : TS.df) (years : Z * Z) :
  df_ts_filtered ts {| selected_regions := []; selected_years := years |} = [].
Proof.
  rewrite df_ts_filtered_filter. cbn [selected_regions selected_years].
  induction ts as [|r rs IH]; [reflexivity|].
  cbn [filter]. unfold in_filterb at 1. cbn [existsb andb]. exact IH.
Qed.

(** C6. With no region selected the filtered table is empty, whatever
    the table and the year range; the trend column then shows its
    heading and the notice asking to select a region, raises nothing and
    builds no line chart. *)
Theorem C6_empty_selection_notice (ts : TS.df) (spk : SPK.df) (years : Z * Z) :
  let w := {| selected_regions := []; selected_years := years |} in
  let fr := {| df_ts := ts; df_spk := spk |} in
  df_ts_filtered ts w = [] /\
  trend w (df_ts_filtered ts w) fr
  = (Ok tt, fr,
     [subheader [Lit "Tren Penyaluran Bansos ("; Int (fst years); Lit "-";
                 Int (snd years); Lit ")"];
      warning no_region_message]) /\
  (forall data x y color markers,
     ~ In (plotly_chart (Line data x y color markers)) (log_of (page w fr))) /\
  (outcome_of (page w fr) = Ok tt ->
   In (warning no_region_message) (log_of (page w fr))).
Proof.
  intros w fr.
  pose proof (filtered_empty_selection ts years) as Hf. fold w in Hf.
  split; [exact Hf|]. split; [rewrite Hf; reflexivity|].
  page_by_cases w fr Hs Hp; rewrite Hp; unfold log_of, outcome_of; cbn [fst snd];
    try (split; [intros data x y c mk H; in_log H; discriminate H
                | intros Hok; discriminate Hok]).
  all: change (df_ts fr) with ts; rewrite Hf; split.
  - intros data x y c mk H.
    unfold trend_log, charts_head_log in H. cbn [Pd.empty negb] in H.
    cbv [fig_bar top_10 Pd.head px_bar update_layout_yaxis_reversed] in H.
    in_log H; discriminate H.
  - intros Hok. discriminate Hok.
  - intros data x y c mk H.
    unfold trend_log, lower_log in H. cbn [Pd.empty negb] in H.
    cbv [fig_bar top_10 Pd.head px_bar update_layout_yaxis_reversed add_vline add_hline
         px_scatter] in H.
    in_log H; discriminate H.
  - intros _. do 3 (apply in_or_app; right). apply in_or_app. left.
    cbn. auto.
Qed.

(** ** The ranking chart *)

Section SortValues.

Lemma sort_values_perm (df : SPK.df) :
  Permutation (sort_values_Ranking df) df.
Proof. apply sort_perm. Qed.

Lemma sort_values_sorted (df : SPK.df) :
  StronglySorted rank_le (sort_values_Ranking df).
Proof. apply sort_sorted. Qed.

(** Distinct ranks make the order strict. *)
Lemma sorted_strict (l : SPK.df) :
  NoDup (map SPK.Ranking l) -> StronglySorted rank_le l -> StronglySorted rank_lt l.
Proof.
  intros Hnd Hs. induction Hs as [|a l Hl IH Ha]; [constructor|].
  cbn in Hnd. inversion Hnd as [|? ? Hnotin Hnd']; subst.
  constructor; [auto|].
  rewrite Forall_forall in *. intros b Hb.
  specialize (Ha b Hb). unfold rank_le in Ha. unfold rank_lt.
  assert (SPK.Ranking a <> SPK.Ranking b).
  { intro E. apply Hnotin. rewrite E. now apply in_map. }
  lia.
Qed.

Lemma strict_weak (l : SPK.df) : StronglySorted rank_lt l -> StronglySorted rank_le l.
Proof.
  induction 1 as [|a l Hl IH Ha]; constructor; [exact IH|].
  eapply Forall_impl; [| exact Ha]. unfold rank_lt, rank_le. intros; lia.
Qed.

Lemma sorted_app_inv {R : SPK.row -> SPK.row -> Prop} (l1 l2 : SPK.df) :
  StronglySorted R (l1 ++ l2) ->
  StronglySorted R l1 /\ forall a b, In a l1 -> In b l2 -> R a b.
Proof.
  induction l1 as [|x l1 IH]; cbn; intros H.
  - split; [constructor | intros a b []].
  - apply StronglySorted_inv in H. destruct H as [H Hx].
    destruct (IH H) as [Hs Hcross].
    apply Forall_app in Hx. destruct Hx as [Hx1 Hx2].
    split; [constructor; assumption|].
    intros a b [<- | Ha] Hb; [| auto].
    rewrite Forall_forall in Hx2. auto.
Qed.

Lemma rank_injective (l : SPK.df) (a b : SPK.row) :
  NoDup (map SPK.Ranking l) -> In a l -> In b l ->
  SPK.Ranking a = SPK.Ranking b -> a = b.
Proof.
  induction l as [|x l IH]; [intros _ []|].
  cbn. intros Hnd Ha Hb E.
  inversion Hnd as [|? ? Hnotin Hnd']; subst.
  destruct Ha as [<- | Ha], Hb as [<- | Hb]; auto.
  - exfalso. apply Hnotin. rewrite E. now apply in_map.
  - exfalso. apply Hnotin. rewrite <- E. now apply in_map.
Qed.

(** A table has one strictly increasing arrangement. *)
Lemma strict_sorted_unique (l1 : SPK.df) :
  forall l2, StronglySorted rank_lt l1 -> StronglySorted rank_lt l2 ->
             Permutation l1 l2 -> l1 = l2.
Proof.
  induction l1 as [|a l1 IH]; intros l2 H1 H2 P.
  - apply Permutation_nil in P. now subst.
  - destruct l2 as [|b l2];
      [apply Permutation_sym, Permutation_nil in P; discriminate|].
    apply StronglySorted_inv in H1. destruct H1 as [H1 Ha].
    apply StronglySorted_inv in H2. destruct H2 as [H2 Hb].
    rewrite Forall_forall in Ha, Hb.
    assert (E : a = b).
    { assert (Hain : In a (b :: l2))
        by (eapply Permutation_in; [exact P | now left]).
      assert (Hbin : In b (a :: l1))
        by (eapply Permutation_in; [apply Permutation_sym, P | now left]).
      destruct Hain as [-> | Hain]; [reflexivity|].
      destruct Hbin as [-> | Hbin]; [reflexivity|].
      specialize (Ha b Hbin). specialize (Hb a Hain).
      unfold rank_lt in *. lia. }
    subst b. f_equal. apply IH; auto.
    eapply Permutation_cons_inv. exact P.
Qed.

End SortValues.

(** C3. For a ranking table of [N] rows with distinct ranks, the bar
    chart is drawn from [min 10 N] rows, the lowest-ranked ones, in
    strictly increasing [Ranking]; the reversed y-axis puts them on the
    plot in that order from the top, where the default would be the
    opposite, so the best-ranked row, the row of rank 1 of a table
    ranked from 1, is the top bar.  Any ascending sort yields the same
    ten rows. *)
Theorem C3_ranking_chart_top10 (spk : SPK.df) :
  NoDup (map SPK.Ranking spk) ->
  let shown := bars_top_down (fig_bar spk) in
  shown = top_10 spk /\
  bars_top_down (px_bar (top_10 spk)) = rev shown /\
  List.length shown = Nat.min 10 (List.length spk) /\
  StronglySorted rank_lt shown /\
  (exists others,
     Permutation spk (shown ++ others) /\
     forall a b, In a shown -> In b others -> rank_lt a b) /\
  (forall first, hd_error shown = Some first ->
                 forall r, In r spk -> rank_le first r) /\
  (forall r, In r spk -> SPK.Ranking r = 1 ->
             (forall r', In r' spk -> 1 <= SPK.Ranking r') ->
             hd_error shown = Some r) /\
  (forall s, Permutation s spk -> StronglySorted rank_le s ->
             Pd.head 10 s = top_10 spk).
Proof.
  intros Hnd shown.
  assert (Hshown : shown = top_10 spk) by reflexivity.
  pose proof (sort_values_perm spk) as Hperm.
  assert (Hnd' : NoDup (map SPK.Ranking (sort_values_Ranking spk))).
  { eapply Permutation_NoDup; [| exact Hnd].
    apply Permutation_map, Permutation_sym, Hperm. }
  pose proof (sorted_strict _ Hnd' (sort_values_sorted spk)) as Hstrict.
  pose proof Hstrict as Hsplit.
  rewrite <- (firstn_skipn 10 (sort_values_Ranking spk)) in Hsplit.
  apply sorted_app_inv in Hsplit. destruct Hsplit as [Hfirst Hcross].
  rewrite Hshown. unfold top_10, Pd.head.
  split; [reflexivity|]. split; [reflexivity|]. split.
  { rewrite length_firstn, (Permutation_length Hperm). reflexivity. }
  split; [exact Hfirst|]. split.
  { exists (skipn 10 (sort_values_Ranking spk)). split; [| exact Hcross].
    rewrite firstn_skipn. apply Permutation_sym, Hperm. }
  split.
  { intros first Hfst r Hr.
    destruct (sort_values_Ranking spk) as [|f rest] eqn:Es; [discriminate|].
    cbn in Hfst. injection Hfst as <-.
    assert (Hr' : In r (f :: rest))
      by (eapply Permutation_in; [apply Permutation_sym, Hperm | exact Hr]).
    apply StronglySorted_inv in Hstrict. destruct Hstrict as [_ Hall].
    rewrite Forall_forall in Hall.
    destruct Hr' as [-> | Hr']; [unfold rank_le; lia|].
    specialize (Hall r Hr'). unfold rank_lt in Hall. unfold rank_le. lia. }
  split.
  - intros r Hr Hr1 Hpos.
    destruct (sort_values_Ranking spk) as [|f rest] eqn:Es.
    + apply Permutation_nil in Hperm. subst spk. destruct Hr.
    + cbn. f_equal.
      assert (Hf : In f spk) by (eapply Permutation_in; [exact Hperm | now left]).
      apply (rank_injective spk); auto.
      assert (Hr' : In r (f :: rest))
        by (eapply Permutation_in; [apply Permutation_sym, Hperm | exact Hr]).
      apply StronglySorted_inv in Hstrict. destruct Hstrict as [_ Hall].
      rewrite Forall_forall in Hall.
      specialize (Hpos f Hf).
      destruct Hr' as [-> | Hr']; [reflexivity|].
      specialize (Hall r Hr'). unfold rank_lt in Hall. lia.
  - intros s Ps Hs. f_equal.
    apply strict_sorted_unique; [| exact Hstrict |].
    + apply sorted_strict; [| exact Hs].
      eapply Permutation_NoDup; [| exact Hnd].
      apply Permutation_map, Permutation_sym, Ps.
    + eapply perm_trans; [exact Ps | apply Permutation_sym, Hperm].
Qed.


(** * Further properties of the script *)

(** ** More on the sidebar filter *)

(** X1. The filtered table lists the matching rows in table order, each
    as often as the table has it: it is the table with the other rows
    struck out. *)
Theorem filter_keeps_table_order (ts : TS.df) (R : list string) (lo hi : Z) :
  df_ts_filtered ts {| selected_regions := R; selected_years := (lo, hi) |}
  = filter (fun r => existsb (String.eqb (TS.Wilayah r)) R
                     && (lo <=? TS.Tahun r) && (TS.Tahun r <=? hi)) ts.
Proof.
  exact (df_ts_filtered_filter ts
           {| selected_regions := R; selected_years := (lo, hi) |}).
Qed.

Lemma min_int_spec (s : list Z) (m : Z) :
  Pd.min_int s = Some m <-> In m s /\ forall y, In y s -> m <= y.
Proof.
  destruct s as [|x s]; cbn.
  - split; [discriminate | intros [[] _]].
  - pose proof (fold_min_spec s x) as [Hin [Hle Hall]]. split.
    + intros E. injection E as <-. split.
      * destruct Hin as [-> | Hin]; auto.
      * intros y [<- | Hy]; auto.
    + intros [Hm Hlb]. f_equal.
      apply Z.le_antisymm.
      * destruct Hm as [<- | Hm]; auto.
      * destruct Hin as [-> | Hin]; apply Hlb; auto.
Qed.

(** X2. With every region of the table selected and the slider at the
    bounds the sidebar computed, its default, nothing is filtered out. *)
Theorem filter_full_selection (ts : TS.df) (R : list string) (lo hi : Z) :
  Pd.min_int (map TS.Tahun ts) = Some lo ->
  Pd.max_int (map TS.Tahun ts) = Some hi ->
  (forall r, In r ts -> In (TS.Wilayah r) R) ->
  df_ts_filtered ts {| selected_regions := R; selected_years := (lo, hi) |} = ts.
Proof.
  intros Hlo Hhi HR.
  apply min_int_spec in Hlo. destruct Hlo as [_ Hlo].
  apply max_int_spec in Hhi. destruct Hhi as [_ Hhi].
  rewrite df_ts_filtered_filter. apply forallb_filter_id.
  apply forallb_forall. intros r Hr.
  cbn [selected_regions selected_years fst snd].
  apply in_filterb_spec. split; [auto|].
  split; [apply Hlo | apply Hhi]; now apply in_map.
Qed.

(** X3. In a run that completes, the trend column shows the notice
    exactly when no row passes the filter, for want of regions or of
    years, and otherwise one line chart, of the filtered rows. *)
Theorem trend_chart_iff_rows (w : widgets) (fr : frames) :
  outcome_of (page w fr) = Ok tt ->
  let filtered := df_ts_filtered (df_ts fr) w in
  let log := log_of (page w fr) in
  (In (warning no_region_message) log <-> filtered = []) /\
  (forall data x y color markers,
     In (plotly_chart (Line data x y color markers)) log
     <-> Line data x y color markers = px_line filtered /\ filtered <> []).
Proof.
  intros Hok filtered log. subst log.
  page_by_cases w fr Hs Hp; rewrite Hp in Hok; try discriminate Hok.
  rewrite Hp. unfold log_of. cbn [snd]. fold filtered.
  unfold trend_log.
  destruct filtered as [|f0 frest] eqn:Ef; cbn [Pd.empty negb]; split.
  - split; [reflexivity|]. intros _.
    do 3 (apply in_or_app; right). apply in_or_app. left. cbn. auto.
  - intros data x y c mk. split.
    + intros H. unfold lower_log in H.
      cbv [fig_bar top_10 Pd.head px_bar update_layout_yaxis_reversed add_vline
           add_hline px_scatter] in H.
      in_log H; discriminate H.
    + intros [_ H]. congruence.
  - split; [| discriminate]. intros H.
    in_log H; discriminate H.
  - intros data x y c mk. split.
    + intros H. unfold lower_log in H.
      cbv [fig_bar top_10 Pd.head px_bar update_layout_yaxis_reversed add_vline
           add_hline px_scatter] in H.
      in_log H; try discriminate H.
      injection H as <- <- <- <- <-. split; [reflexivity | discriminate].
    + intros [E _]. rewrite E.
      do 3 (apply in_or_app; right). apply in_or_app. left. cbn. auto.
Qed.

(** ** The sidebar's lists and bounds *)

Lemma ltb_compare (a b : string) : String.ltb a b = true <-> String.compare a b = Lt.
Proof. unfold String.ltb. destruct (String.compare a b); split; congruence. Qed.

Lemma name_lt_trans (a b c : string) : name_lt a b -> name_lt b c -> name_lt a c.
Proof.
  unfold name_lt. rewrite !ltb_compare.
  change String.compare with OrderedTypeEx.String_as_OT.cmp.
  rewrite !OrderedTypeEx.String_as_OT.cmp_lt.
  apply OrderedTypeEx.String_as_OT.lt_trans.
Qed.

Lemma name_lt_irrefl (a : string) : ~ name_lt a a.
Proof.
  unfold name_lt. rewrite ltb_compare. intro H.
  pose proof (String.compare_antisym a a) as E. rewrite H in E. discriminate E.
Qed.

Lemma leb_neq_lt (a b : string) : String.leb a b = true -> a <> b -> name_lt a b.
Proof.
  unfold name_lt, String.leb. rewrite ltb_compare.
  destruct (String.compare a b) eqn:E; intros H Hne; try congruence.
  apply String.compare_eq_iff in E. contradiction.
Qed.

Lemma leb_false_lt (a b : string) : String.leb a b = false -> name_lt b a.
Proof.
  unfold name_lt, String.leb. rewrite ltb_compare.
  rewrite (String.compare_antisym a b).
  destruct (String.compare b a); cbn; congruence.
Qed.

Lemma insert_str_In (x y : string) (l : list string) :
  In y (insert_str x l) <-> y = x \/ In y l.
Proof.
  only_used.
  induction l as [|z l IH]; cbn.
  - intuition.
  - destruct (String.leb x z); cbn; [intuition | rewrite IH; intuition].
Qed.

Lemma insert_str_sorted (x : string) (l : list string) :
  ~ In x l -> StronglySorted name_lt l -> StronglySorted name_lt (insert_str x l).
Proof.
  intros Hx Hs. induction Hs as [|z l Hl IH Hz]; cbn.
  - repeat constructor.
  - assert (Hxz : x <> z) by (intro E; apply Hx; now left).
    assert (Hxl : ~ In x l) by (intro H; apply Hx; now right).
    destruct (String.leb x z) eqn:E.
    + apply leb_neq_lt in E; [| exact Hxz].
      constructor; [constructor; assumption|].
      constructor; [exact E|].
      eapply Forall_impl; [| exact Hz]. intros c. now apply name_lt_trans.
    + apply leb_false_lt in E. constructor; [auto|].
      apply Forall_forall. intros c Hc. apply insert_str_In in Hc.
      destruct Hc as [-> | Hc]; [exact E|].
      rewrite Forall_forall in Hz. auto.
Qed.

Lemma sorted_In (l : list string) (y : string) : In y (sorted l) <-> In y l.
Proof.
  only_used.
  induction l as [|x l IH]; cbn; [tauto|].
  rewrite insert_str_In, IH. intuition.
Qed.

Lemma sorted_strongly (l : list string) :
  NoDup l -> StronglySorted name_lt (sorted l).
Proof.
  induction 1 as [|x l Hx Hnd IH]; cbn; [constructor|].
  apply insert_str_sorted; [| exact IH].
  now rewrite sorted_In.
Qed.

Lemma unique_from_In (s seen : list string) (y : string) :
  In y (Pd.unique_from seen s) <-> In y s /\ ~ In y seen.
Proof.
  only_used.
  revert seen. induction s as [|x s IH]; intro seen; cbn; [tauto|].
  destruct (existsb (String.eqb x) seen) eqn:E.
  - apply existsb_eqb_In in E. rewrite IH. split.
    + intros [H1 H2]. auto.
    + intros [[<- | H1] H2]; [contradiction | auto].
  - assert (Hx : ~ In x seen)
      by (intro H; apply existsb_eqb_In in H; congruence).
    cbn. rewrite IH. cbn. split.
    + intros [<- | [H1 H2]]; [auto | split; [auto | tauto]].
    + intros [[<- | H1] H2]; [now left|].
      destruct (String.string_dec x y) as [-> | Hne]; [now left|].
      right. split; [exact H1|]. intros [E' | E']; auto.
Qed.

Lemma unique_from_NoDup (s seen : list string) : NoDup (Pd.unique_from seen s).
Proof.
  only_used.
  revert seen. induction s as [|x s IH]; intro seen; cbn; [constructor|].
  destruct (existsb (String.eqb x) seen); [apply IH|].
  constructor; [| apply IH].
  rewrite unique_from_In. cbn. tauto.
Qed.

Lemma strict_sorted_NoDup (l : list string) : StronglySorted name_lt l -> NoDup l.
Proof.
  induction 1 as [|x l Hl IH Hx]; constructor; [| exact IH].
  intro Hin. rewrite Forall_forall in Hx.
  exact (name_lt_irrefl x (Hx x Hin)).
Qed.

Lemma multiselect_logged (w : widgets) (fr : frames) :
  In (multiselect "Pilih Wilayah untuk Analisis Tren:"
        (all_regions (df_ts fr)) (default_regions (df_spk fr)))
     (log_of (page w fr)).
Proof.
  assert (H : In (multiselect "Pilih Wilayah untuk Analisis Tren:"
                    (all_regions (df_ts fr)) (default_regions (df_spk fr)))
                 (sidebar_head_log fr))
    by (unfold sidebar_head_log; cbn; auto).
  page_by_cases w fr Hs Hp; rewrite Hp; unfold log_of; cbn [snd];
    try exact H;
    try (apply in_or_app; left; exact H);
    unfold sidebar_log; apply in_or_app; left; apply in_or_app; left; exact H.
Qed.

(** X4. The options every run offers in the region selector are the
    region names of the time-series table, each once, in strictly
    increasing code-point order. *)
Theorem all_regions_sorted_distinct (ts : TS.df) (spk : SPK.df) (w : widgets) :
  In (multiselect "Pilih Wilayah untuk Analisis Tren:"
        (all_regions ts) (default_regions spk))
     (log_of (page w {| df_ts := ts; df_spk := spk |})) /\
  StronglySorted name_lt (all_regions ts) /\
  NoDup (all_regions ts) /\
  (forall x, In x (all_regions ts) <-> exists r, In r ts /\ TS.Wilayah r = x).
Proof.
  only_used.
  split; [apply (multiselect_logged w {| df_ts := ts; df_spk := spk |})|].
  assert (Hs : StronglySorted name_lt (all_regions ts))
    by (apply sorted_strongly, unique_from_NoDup).
  split; [exact Hs|]. split; [exact (strict_sorted_NoDup _ Hs)|].
  intros x. unfold all_regions, Pd.unique.
  rewrite sorted_In, unique_from_In, in_map_iff. cbn. split.
  - intros [[r [E Hr]] _]. exists r. auto.
  - intros [r [Hr E]]. split; [exists r; auto | tauto].
Qed.

(** X5. The selector's default is the regions of the five topmost bars
    of the ranking chart, fewer when the table is shorter; each is the
    region of a row of the ranking table. *)
Theorem default_regions_are_top_bars (spk : SPK.df) :
  default_regions spk = map SPK.Wilayah (firstn 5 (bars_top_down (fig_bar spk))) /\
  List.length (default_regions spk) = Nat.min 5 (List.length spk) /\
  (forall x, In x (default_regions spk) -> exists r, In r spk /\ SPK.Wilayah r = x).
Proof.
  assert (E : default_regions spk
              = map SPK.Wilayah (firstn 5 (sort_values_Ranking spk)))
    by (unfold default_regions, Pd.head; apply firstn_map).
  split.
  - rewrite E. change (bars_top_down (fig_bar spk))
      with (firstn 10 (sort_values_Ranking spk)).
    now rewrite firstn_firstn.
  - split.
    + rewrite E, length_map, length_firstn.
      now rewrite (Permutation_length (sort_values_perm spk)).
    + intros x Hx. rewrite E in Hx. apply in_map_iff in Hx.
      destruct Hx as [r [Hr Hin]]. exists r. split; [| exact Hr].
      eapply Permutation_in; [apply sort_values_perm|].
      rewrite <- (firstn_skipn 5 (sort_values_Ranking spk)).
      apply in_or_app. now left.
Qed.

(** X6. When the sidebar reaches the slider, on a non-empty time-series
    table whose selector defaults are among the options, it calls it
    with the least and the greatest [Tahun] of the table as bounds and
    as value: both are years of the table, in order, and every row lies
    between them.  The sidebar then completes and returns the greatest
    year when the two differ. *)
Theorem slider_bounds_cover_table (w : widgets) (fr : frames) :
  df_ts fr <> [] ->
  defaults_offered fr = true ->
  exists lo hi,
    In (slider "Rentang Tahun:" lo hi (lo, hi)) (log_of (sidebar w fr)) /\
    lo <= hi /\
    In lo (map TS.Tahun (df_ts fr)) /\ In hi (map TS.Tahun (df_ts fr)) /\
    (forall r, In r (df_ts fr) -> lo <= TS.Tahun r <= hi) /\
    (slider_accepts lo hi = true -> sidebar w fr = (Ok hi, fr, sidebar_log fr lo hi)).
Proof.
  intros Hne Hdef.
  destruct (sidebar_cases fr) as [H | H E | lo hi H Hlo Hhi Hlt | lo hi H Hlo Hhi Hlt];
    try congruence.
  - exists lo, hi. rewrite (sidebar_rejected_bounds w fr lo hi H Hlo Hhi Hlt).
    unfold log_of. cbn [snd].
    split; [apply in_or_app; right; now left|].
    apply min_int_spec in Hlo. destruct Hlo as [Hlo Hlb].
    apply max_int_spec in Hhi. destruct Hhi as [Hhi Hub].
    split; [now apply Hlb|]. split; [exact Hlo|]. split; [exact Hhi|]. split.
    + intros r Hr. split; [apply Hlb | apply Hub]; now apply in_map.
    + intros Hacc. congruence.
  - exists lo, hi. rewrite (sidebar_run w fr lo hi H Hlo Hhi Hlt).
    unfold log_of. cbn [snd].
    split; [unfold sidebar_log; apply in_or_app; right; now left|].
    apply min_int_spec in Hlo. destruct Hlo as [Hlo Hlb].
    apply max_int_spec in Hhi. destruct Hhi as [Hhi Hub].
    split; [now apply Hlb|]. split; [exact Hlo|]. split; [exact Hhi|]. split.
    + intros r Hr. split; [apply Hlb | apply Hub]; now apply in_map.
    + reflexivity.
Qed.

(** ** The ranking chart and the best-region KPI *)

(** X10. Ties or not, the ranking chart is drawn from [min 10 N] rows of
    the table in non-decreasing [Ranking], and no row left out ranks
    better than a row shown. *)
Theorem ranking_chart_with_ties (spk : SPK.df) :
  let shown := bars_top_down (fig_bar spk) in
  List.length shown = Nat.min 10 (List.length spk) /\
  StronglySorted rank_le shown /\
  exists others,
    Permutation spk (shown ++ others) /\
    forall a b, In a shown -> In b others -> rank_le a b.
Proof.
  cbn zeta.
  change (bars_top_down (fig_bar spk)) with (firstn 10 (sort_values_Ranking spk)).
  pose proof (sort_values_perm spk) as Hperm.
  pose proof (sort_values_sorted spk) as Hs.
  rewrite <- (firstn_skipn 10 (sort_values_Ranking spk)) in Hs.
  apply sorted_app_inv in Hs. destruct Hs as [Hfirst Hcross].
  split; [rewrite length_firstn, (Permutation_length Hperm); reflexivity|].
  split; [exact Hfirst|].
  exists (skipn 10 (sort_values_Ranking spk)). split; [| exact Hcross].
  rewrite firstn_skipn. apply Permutation_sym, Hperm.
Qed.

Lemma only_rank1_row (spk : SPK.df) (r : SPK.row) :
  NoDup (map SPK.Ranking spk) -> In r spk -> SPK.Ranking r = 1 ->
  exists rest, rank1_rows spk = r :: rest.
Proof.
  intros Hnd Hr H1.
  assert (Hin : In r (rank1_rows spk)).
  { rewrite rank1_rows_filter. apply filter_In. split; [exact Hr|].
    now apply Z.eqb_eq. }
  destruct (rank1_rows spk) as [|best rest] eqn:E; [destruct Hin|].
  exists rest. f_equal.
  assert (Hb : In best (rank1_rows spk)) by (rewrite E; now left).
  rewrite rank1_rows_filter in Hb. apply filter_In in Hb.
  destruct Hb as [Hb Hb1]. apply Z.eqb_eq in Hb1.
  apply (rank_injective spk); auto. congruence.
Qed.

(** X11. When ranks are distinct and start at 1, the best-region KPI
    and the ranking chart agree: the region and score the KPI shows are
    those of the top bar. *)
Theorem best_region_is_top_bar (spk : SPK.df) (r : SPK.row) (S : Type) (s : S) :
  NoDup (map SPK.Ranking spk) ->
  (forall r', In r' spk -> 1 <= SPK.Ranking r') ->
  In r spk -> SPK.Ranking r = 1 ->
  top_region spk s = (Ok (SPK.Wilayah r), s, []) /\
  top_score spk s = (Ok (SPK.Skor_TOPSIS r), s, []) /\
  hd_error (bars_top_down (fig_bar spk)) = Some r.
Proof.
  intros Hnd Hpos Hr H1.
  destruct (only_rank1_row spk r Hnd Hr H1) as [rest E].
  split; [rewrite top_region_rank1, E; reflexivity|].
  split; [rewrite top_score_rank1, E; reflexivity|].
  change (bars_top_down (fig_bar spk)) with (firstn 10 (sort_values_Ranking spk)).
  pose proof (sort_values_perm spk) as Hperm.
  pose proof (sort_values_sorted spk) as Hs.
  destruct (sort_values_Ranking spk) as [|f tl] eqn:Es.
  - apply Permutation_nil in Hperm. subst spk. destruct Hr.
  - cbn. f_equal.
    assert (Hf : In f spk) by (eapply Permutation_in; [exact Hperm | now left]).
    assert (Hr' : In r (f :: tl))
      by (eapply Permutation_in; [apply Permutation_sym, Hperm | exact Hr]).
    apply (rank_injective spk); auto.
    specialize (Hpos f Hf).
    destruct Hr' as [-> | Hr']; [reflexivity|].
    apply StronglySorted_inv in Hs. destruct Hs as [_ Hall].
    rewrite Forall_forall in Hall. specialize (Hall r Hr').
    unfold rank_le in Hall. lia.
Qed.

(** ** Whole runs *)

Lemma kpi_tail_of_stable (fr : frames) (best s1 s2 : SPK.row) :
  stable_region (df_spk fr) fr = (Ok (SPK.Wilayah s1), fr, []) ->
  stable_region (df_spk fr) fr = (Ok (SPK.Wilayah s2), fr, []) ->
  kpi_tail_log fr best s1 = kpi_tail_log fr best s2.
Proof.
  intros H1 H2. rewrite H1 in H2. injection H2 as E.
  unfold kpi_tail_log. now rewrite E.
Qed.

Lemma page_cases_uniform (fr : frames) :
  (exists e log, forall w, page w fr = (Raise e, fr, log)) \/
  (exists out pre post,
     (sizes_drawable (df_spk fr) = true -> out = Ok tt) /\
     (sizes_drawable (df_spk fr) = false -> out = Raise ValueError) /\
     forall w,
       page w fr
       = (out, fr, pre ++ trend_log w (df_ts_filtered (df_ts fr) w) ++ post)).
Proof.
  destruct (sidebar_cases fr) as [H | H E | lo hi H Hlo Hhi Hlt | lo hi H Hlo Hhi Hlt].
  - left. do 2 eexists. intro w. now apply page_rejected_default.
  - left. do 2 eexists. intro w. now apply page_empty_ts.
  - left. do 2 eexists. intro w. now apply (page_rejected_bounds w fr lo hi).
  - destruct (rank1_rows (df_spk fr)) as [|best rest] eqn:H1.
    + left. do 2 eexists. intro w. now apply (page_no_rank1 w fr lo hi).
    + right.
      destruct (kpis_ok hi fr best rest H1) as [stable [_ [Hreg _]]].
      destruct (sizes_drawable (df_spk fr)) eqn:Hsz.
      * exists (Ok tt),
          (sidebar_log fr lo hi ++ kpi_head_log fr hi ++ kpi_tail_log fr best stable),
          (lower_log fr).
        split; [reflexivity|]. split; [discriminate|].
        intro w.
        destruct (page_ok w fr lo hi best rest H Hlo Hhi Hlt H1 Hsz)
          as [stable' [_ [Hreg' Hp]]].
        rewrite Hp, (kpi_tail_of_stable fr best stable' stable Hreg' Hreg).
        now rewrite <- !app_assoc.
      * exists (Raise ValueError),
          (sidebar_log fr lo hi ++ kpi_head_log fr hi ++ kpi_tail_log fr best stable),
          (charts_head_log fr).
        split; [discriminate|]. split; [reflexivity|].
        intro w.
        destruct (page_refused w fr lo hi best rest H Hlo Hhi Hlt H1 Hsz)
          as [stable' [_ [Hreg' Hp]]].
        rewrite Hp, (kpi_tail_of_stable fr best stable' stable Hreg' Hreg).
        now rewrite <- !app_assoc.
Qed.

(** X12. How a run ends is decided by the two files alone: it stops when
    one is missing; it raises at the region selector when a default is
    not among the options, [ValueError] on an empty time-series table,
    at the slider when the table has a single year or a year the slider
    cannot hold, [IndexError] on a ranking table without a rank-1 row,
    [ValueError] at the bubble chart when a volume is negative; and it
    completes otherwise.  The sidebar state plays no part, and no other
    exception leaves the script. *)
Theorem run_outcome_from_files (d : disk) (w : widgets) :
  fst (app_py d w) = expected_outcome d.
Proof.
  destruct d as [[ts|] [spk|]]; try reflexivity.
  rewrite app_py_loaded. cbn zeta. cbn [fst]. unfold expected_outcome.
  cbn [data_timeseries_bansos_jabar_csv hasil_spk_topsis_csv].
  destruct (sidebar_cases {| df_ts := ts; df_spk := spk |})
    as [H | H E | lo hi H Hlo Hhi Hlt | lo hi H Hlo Hhi Hlt].
  - rewrite (page_rejected_default w _ H). now rewrite H.
  - rewrite (page_empty_ts w _ H E). rewrite H.
    cbn [df_ts] in E. rewrite E. reflexivity.
  - rewrite (page_rejected_bounds w _ lo hi H Hlo Hhi Hlt). rewrite H.
    cbn [df_ts] in Hlo, Hhi. now rewrite Hlo, Hhi, Hlt.
  - rewrite H.
    pose proof Hlo as Hlo'. pose proof Hhi as Hhi'.
    cbn [df_ts] in Hlo', Hhi'. rewrite Hlo', Hhi', Hlt.
    destruct (rank1_rows spk) as [|best rest] eqn:H1.
    + now rewrite (page_no_rank1 w _ lo hi H Hlo Hhi Hlt H1).
    + destruct (sizes_drawable spk) eqn:Hsz.
      * destruct (page_ok w _ lo hi best rest H Hlo Hhi Hlt H1 Hsz)
          as [stable [_ [_ Hp]]].
        now rewrite Hp.
      * destruct (page_refused w _ lo hi best rest H Hlo Hhi Hlt H1 Hsz)
          as [stable [_ [_ Hp]]].
        now rewrite Hp.
Qed.

(** X13. The sidebar state reaches the page only through the trend
    column: how the run ends, the calls before that column and the
    calls after it are the same for every selection of regions and
    years; a run that ends before the column shows the calls before it
    only, and a run that completes shows the column. *)
Theorem widgets_change_only_trend (fr : frames) :
  exists (out : outcome unit) (pre post : list event) (shown : bool),
    (out = Ok tt -> shown = true) /\
    forall w,
      outcome_of (page w fr) = out /\
      log_of (page w fr)
      = pre ++ if shown then trend_log w (df_ts_filtered (df_ts fr) w) ++ post
               else [].
Proof.
  destruct (page_cases_uniform fr)
    as [[e [log Hp]] | [out [pre [post [_ [_ Hp]]]]]].
  - exists (Raise e), log, [], false. split; [discriminate|].
    intro w. rewrite Hp.
    cbn [log_of outcome_of fst snd]. now rewrite app_nil_r.
  - exists out, pre, post, true. split; [reflexivity|].
    intro w. rewrite Hp. split; reflexivity.
Qed.

(** X14. The page shows an error message exactly when one of the two
    files is missing, and then it is the file-not-found message; no run
    over loaded tables shows one. *)
Theorem error_shown_iff_file_missing (d : disk) (w : widgets) (msg : string) :
  In (error msg) (snd (app_py d w))
  <-> msg = file_not_found_message /\
      (data_timeseries_bansos_jabar_csv d = None \/ hasil_spk_topsis_csv d = None).
Proof.
  only_used.
  destruct d as [[ts|] [spk|]];
    cbn [data_timeseries_bansos_jabar_csv hasil_spk_topsis_csv].
  - rewrite app_py_loaded. cbn zeta. cbn [snd]. split.
    + intros H. exfalso. apply in_app_or in H. destruct H as [H | H].
      * unfold preamble_log in H. cbn in H. intuition discriminate.
      * page_by_cases w {| df_ts := ts; df_spk := spk |} Hs Hp;
          rewrite Hp in H; unfold log_of in H; cbn [snd] in H;
          in_log H; discriminate H.
    + intros [_ [H | H]]; discriminate H.
  - change (snd (app_py {| data_timeseries_bansos_jabar_csv := Some ts;
                           hasil_spk_topsis_csv := None |} w))
      with (preamble_log ++ [error file_not_found_message]).
    unfold preamble_log. cbn. split.
    + intros [H | [H | [H | []]]]; try discriminate H.
      injection H as <-. auto.
    + intros [-> _]. auto.
  - change (snd (app_py {| data_timeseries_bansos_jabar_csv := None;
                           hasil_spk_topsis_csv := Some spk |} w))
      with (preamble_log ++ [error file_not_found_message]).
    unfold preamble_log. cbn. split.
    + intros [H | [H | [H | []]]]; try discriminate H.
      injection H as <-. auto.
    + intros [-> _]. auto.
  - change (snd (app_py {| data_timeseries_bansos_jabar_csv := None;
                           hasil_spk_topsis_csv := None |} w))
      with (preamble_log ++ [error file_not_found_message]).
    unfold preamble_log. cbn. split.
    + intros [H | [H | [H | []]]]; try discriminate H.
      injection H as <-. auto.
    + intros [-> _]. auto.
Qed.

(** X15. [load_data] never raises and never returns one table without
    the other: it gives back the two tables of the files and shows
    nothing, or [(None, None)] with the error message when a file is
    missing; the second file is not looked at when the first is
    missing. *)
Theorem load_data_all_or_nothing (d : disk) :
  exists a b log,
    load_data d = (Ok (a, b), d, log) /\
    (a = None <-> b = None) /\
    ((a = data_timeseries_bansos_jabar_csv d /\ b = hasil_spk_topsis_csv d /\
      a <> None /\ b <> None /\ log = []) \/
     (a = None /\ b = None /\ log = [error file_not_found_message] /\
      (data_timeseries_bansos_jabar_csv d = None \/ hasil_spk_topsis_csv d = None))).
Proof.
  destruct d as [[ts|] [spk|]].
  - exists (Some ts), (Some spk), []. split; [reflexivity|].
    split; [split; discriminate|]. left. cbn. repeat split; discriminate.
  - exists None, None, [error file_not_found_message]. split; [reflexivity|].
    split; [tauto|]. right. cbn. auto.
  - exists None, None, [error file_not_found_message]. split; [reflexivity|].
    split; [tauto|]. right. cbn. auto.
  - exists None, None, [error file_not_found_message]. split; [reflexivity|].
    split; [tauto|]. right. cbn. auto.
Qed.

(** X16. Whatever a run offers for download is the whole ranking table,
    unfiltered and without the index column, under the fixed file name;
    a run that completes offers it, and shows the detail table over the
    same rows. *)
Theorem download_is_full_table (w : widgets) (fr : frames) :
  let log := log_of (page w fr) in
  (forall label data file_name mime,
     In (download_button label data file_name mime) log ->
     data = to_csv_utf8 (df_spk fr) false /\
     file_name = "Laporan_SPK_Bansos_Jabar.csv" /\ mime = "text/csv") /\
  (outcome_of (page w fr) = Ok tt ->
   In (download_button "Download Hasil Analisis (CSV)" (to_csv_utf8 (df_spk fr) false)
         "Laporan_SPK_Bansos_Jabar.csv" "text/csv") log /\
   In (dataframe {| styled := df_spk fr; formats := detail_formats;
                    gradient_subset := ["Skor_TOPSIS"]; cmap := "Greens" |}) log).
Proof.
  cbn zeta.
  page_by_cases w fr Hs Hp;
    rewrite Hp; unfold log_of, outcome_of; cbn [fst snd]; split;
    try (intros Hok; discriminate Hok);
    try (intros label data file mime H; in_log H; discriminate H).
  - intros label data file mime H. in_log H; try discriminate H;
      injection H as _ <- <- <-; auto.
  - intros _. split; do 4 (apply in_or_app; right);
      unfold lower_log, csv; cbn; tauto.
Qed.



(** ** The export read back *)

Import Csv.


























End Script.

(** * The insertion sort as the table sort *)

Lemma insert_by_rank_perm (r : SPK.row) (l : SPK.df) :
  Permutation (Pd.insert_by_rank r l) (r :: l).
Proof.
  induction l as [|y l IH]; cbn; [constructor; constructor|].
  destruct (SPK.Ranking r <=? SPK.Ranking y); [apply Permutation_refl|].
  eapply perm_trans; [apply perm_skip, IH | apply perm_swap].
Qed.

Lemma insertion_sort_perm (df : SPK.df) :
  Permutation (Pd.insertion_sort df) df.
Proof.
  induction df as [|r df IH]; cbn; [constructor|].
  eapply perm_trans; [apply insert_by_rank_perm | apply perm_skip, IH].
Qed.

Lemma insert_by_rank_sorted (r : SPK.row) (l : SPK.df) :
  StronglySorted rank_le l -> StronglySorted rank_le (Pd.insert_by_rank r l).
Proof.
  induction 1 as [|y l Hl IH Hy]; cbn; [repeat constructor|].
  destruct (SPK.Ranking r <=? SPK.Ranking y) eqn:E.
  - apply Z.leb_le in E. constructor; [constructor; assumption|].
    constructor; [exact E|].
    eapply Forall_impl; [| exact Hy]. unfold rank_le. intros; lia.
  - apply Z.leb_gt in E. constructor; [exact IH|].
    apply (Permutation_Forall (Permutation_sym (insert_by_rank_perm r l))).
    constructor; [unfold rank_le; lia | exact Hy].
Qed.

Lemma insertion_sort_sorted (df : SPK.df) :
  StronglySorted rank_le (Pd.insertion_sort df).
Proof.
  induction df as [|r df IH]; cbn; [constructor|].
  now apply insert_by_rank_sorted.
Qed.

Definition by_insertion : ranking_sort :=
  {| sort_fn := Pd.insertion_sort;
     sort_perm := insertion_sort_perm;
     sort_sorted := insertion_sort_sorted |}.

(** * A worked session

    The session of the sample tables, under exact column arithmetic, the
    whole-number text of numbers and the insertion sort. *)

Example filtered_only_A :
  df_ts_filtered ts_AB only_A = [TS.mk "A" 2023 10; TS.mk "A" 2024 20].
Proof. reflexivity. Qed.

Example total_2024_AB : total_realisasi_2024 sum_exact ts_AB 2024 = 35%Q.
Proof. reflexivity. Qed.

Example run_AB_completes :
  fst (app_py sum_exact mean_exact by_insertion
         {| data_timeseries_bansos_jabar_csv := Some ts_AB;
            hasil_spk_topsis_csv := Some spk_AB |} only_A) = Ok tt.
Proof. vm_compute. reflexivity. Qed.

Example best_region_AB :
  In (metric_best "A" (9 # 10))
     (log_of (page sum_exact mean_exact by_insertion only_A
                {| df_ts := ts_AB; df_spk := spk_AB |})).
Proof. vm_compute. tauto. Qed.

Example stable_region_tie (fr : frames) :
  stable_region spk_tie fr = (Ok "A", fr, []).
Proof. reflexivity. Qed.

(** A ranked region that the time series does not have stops the run at
    the region selector. *)
Example run_unknown_region :
  fst (app_py sum_exact mean_exact by_insertion
         {| data_timeseries_bansos_jabar_csv := Some ts_AB;
            hasil_spk_topsis_csv := Some spk_tie |} only_A)
  = Raise StreamlitAPIException.
Proof. vm_compute. reflexivity. Qed.

(** A time series of a single year stops the run at the year slider. *)
Example run_single_year :
  app_py sum_exact mean_exact by_insertion
    {| data_timeseries_bansos_jabar_csv := Some [TS.mk "A" 2024 20; TS.mk "B" 2024 15];
       hasil_spk_topsis_csv := Some spk_AB |} only_A
  = (Raise StreamlitAPIException,
     preamble_log
     ++ sidebar_head_log by_insertion
          {| df_ts := [TS.mk "A" 2024 20; TS.mk "B" 2024 15]; df_spk := spk_AB |}
     ++ [slider "Rentang Tahun:" 2024 2024 (2024, 2024)]).
Proof. vm_compute. reflexivity. Qed.

(** A negative volume stops the run at the bubble chart, after the
    trend column was shown. *)
Example run_negative_volume :
  let fr := {| df_ts := ts_AB;
               df_spk := [SPK.mk "A" 1 (9 # 10) (-30) 90 5 4;
                          SPK.mk "B" 2 (5 # 10) 20 80 3 2] |} in
  outcome_of (page sum_exact mean_exact by_insertion only_A fr) = Raise ValueError /\
  In (plotly_chart (px_line [TS.mk "A" 2023 10; TS.mk "A" 2024 20]))
     (log_of (page sum_exact mean_exact by_insertion only_A fr)).
Proof. vm_compute. tauto. Qed.

(** Sorting in place reorders the stored table. *)
Example sort_in_place_writes :
  df_spk (store_of (sort_values_inplace by_insertion {| df_ts := ts_ABC; df_spk := spk_tie |}))
  = [SPK.mk "A" 1 (9 # 10) 30 90 5 2; SPK.mk "B" 1 (9 # 10) 20 80 3 2;
     SPK.mk "C" 2 (4 # 10) 10 70 1 3].
Proof. reflexivity. Qed.

(** The region name with a comma is written in quotes and read back
    whole. *)
Example export_records_whole :
  map (map Csv.str_of)
    (Csv.tokenize (export_bytes whole_repr (csv spk_whole)))
  = [Csv.columns;
     ["Bandung, Kota"; "1"; "1"; "30"; "90"; "5"; "4"];
     ["B"; "2"; "0"; "20"; "80"; "-3"; "2"]].
Proof. vm_compute. reflexivity. Qed.

Example export_quotes_comma :
  firstn 15 (Csv.write_record (row_fields whole_repr (SPK.mk "Bandung, Kota" 1 1 30 90 5 4)))
  = Csv.dquote :: Csv.bytes_of "Bandung, Kota" ++ [Csv.dquote].
Proof. vm_compute. reflexivity. Qed.

(** With the index column the records would start with the row label. *)
Example export_with_index :
  map (map Csv.str_of)
    (Csv.tokenize (export_bytes whole_repr (to_csv_utf8 spk_whole true)))
  = [""; "Wilayah"; "Ranking"; "Skor_TOPSIS"; "C1_Volume"; "C2_Efektivitas";
     "C3_Tren_Pertumbuhan"; "C4_Stabilitas"]
    :: [["0"; "Bandung, Kota"; "1"; "1"; "30"; "90"; "5"; "4"];
        ["1"; "B"; "2"; "0"; "20"; "80"; "-3"; "2"]].
Proof. vm_compute. reflexivity. Qed.

(** A region named like a missing-value marker is read as missing, and
    a column of numbers is not read as text. *)
Example export_NA_name :
  parse_csv whole_parse (export_bytes whole_repr (csv [SPK.mk "NA" 1 1 30 90 5 4]))
  = None.
Proof. vm_compute. reflexivity. Qed.

Example export_number_names :
  parse_csv whole_parse (export_bytes whole_repr (csv [SPK.mk "3201" 1 1 30 90 5 4]))
  = None.
Proof. vm_compute. reflexivity. Qed.

Example export_one_text_name :
  let t := [SPK.mk "3201" 1 1 30 90 5 4; SPK.mk "Garut" 2 0 20 80 5 2] in
  parse_csv whole_parse (export_bytes whole_repr (csv t)) = Some t.
Proof. vm_compute. reflexivity. Qed.


Lemma C3_ranking_chart_top10_witness :
  NoDup (map SPK.Ranking spk_AB) /\
  List.length (bars_top_down (fig_bar by_insertion spk_AB)) = 2%nat /\
  hd_error (bars_top_down (fig_bar by_insertion spk_AB))
  = Some (SPK.mk "A" 1 (9 # 10) 30 90 5 4).
Proof.
  assert (Hnd : NoDup (map SPK.Ranking spk_AB)).
  { simpl. repeat constructor; simpl; intuition lia. }
  split; [exact Hnd|].
  destruct (C3_ranking_chart_top10 by_insertion spk_AB Hnd)
    as [_ [_ [Hlen [_ [_ [_ [Hfirst _]]]]]]].
  split; [exact Hlen|].
  apply Hfirst.
  - simpl. tauto.
  - reflexivity.
  - simpl. intros r' H. decompose [or] H; subst; simpl; lia.
Defined.



Lemma C5_no_rank1_faults_witness :
  (forall r, In r spk_no_first -> SPK.Ranking r <> 1) /\
  fst (app_py sum_exact mean_exact by_insertion
         {| data_timeseries_bansos_jabar_csv := Some ts_AB;
            hasil_spk_topsis_csv := Some spk_no_first |} only_A) = Raise IndexError.
Proof.
  assert (H : forall r : SPK.row, In r spk_no_first -> SPK.Ranking r <> 1).
  { simpl. intros r Hr. decompose [or] Hr; subst; simpl; lia. }
  split; [exact H|].
  destruct (C5_no_rank1_faults sum_exact mean_exact by_insertion ts_AB spk_no_first
              only_A H)
    as [_ [Hrun _]].
  apply (Hrun 2024). reflexivity.
Defined.

Lemma C6_empty_selection_notice_witness :
  In (warning no_region_message)
     (log_of (page sum_exact mean_exact by_insertion
                {| selected_regions := []; selected_years := (2023, 2024) |}
                {| df_ts := ts_AB; df_spk := spk_AB |})).
Proof.
  destruct (C6_empty_selection_notice sum_exact mean_exact by_insertion ts_AB spk_AB
              (2023, 2024))
    as [_ [_ [_ H]]].
  apply H. vm_compute. reflexivity.
Defined.

Lemma C7_missing_file_halts_witness :
  app_py sum_exact mean_exact by_insertion
    {| data_timeseries_bansos_jabar_csv := Some ts_AB;
       hasil_spk_topsis_csv := None |} only_A
  = (Stopped, preamble_log ++ [error file_not_found_message]).
Proof.
  apply (C7_missing_file_halts sum_exact mean_exact by_insertion
           {| data_timeseries_bansos_jabar_csv := Some ts_AB;
              hasil_spk_topsis_csv := None |} only_A).
  right. reflexivity.
Defined.

Lemma C8_most_stable_first_minimum_witness :
  exists (i : nat) (r : SPK.row),
    nth_error spk_tie i = Some r /\
    stable_region spk_tie tt = (Ok (SPK.Wilayah r), tt, []) /\
    stable_value spk_tie = Some (SPK.C4_Stabilitas r) /\
    (forall r', In r' spk_tie -> (SPK.C4_Stabilitas r <= SPK.C4_Stabilitas r')%Q) /\
    (forall j r', (j < i)%nat -> nth_error spk_tie j = Some r' ->
                  (SPK.C4_Stabilitas r < SPK.C4_Stabilitas r')%Q).
Proof.
  apply (C8_most_stable_first_minimum spk_tie unit tt). discriminate.
Defined.

Lemma C10_first_rank1_reported_witness :
  (2 <= List.length (filter (fun r => (SPK.Ranking r =? 1)%Z) spk_tie))%nat /\
  outcome_of (page sum_exact mean_exact by_insertion only_A
                {| df_ts := ts_ABC; df_spk := spk_tie |})
  = Ok tt /\
  exists best,
    nth_error spk_tie 1 = Some best /\
    In (metric_best (SPK.Wilayah best) (SPK.Skor_TOPSIS best))
       (log_of (page sum_exact mean_exact by_insertion only_A
                  {| df_ts := ts_ABC; df_spk := spk_tie |})).
Proof.
  assert (H : (2 <= List.length (filter (fun r => (SPK.Ranking r =? 1)%Z) spk_tie))%nat)
    by (simpl; lia).
  split; [exact H|].
  destruct (C10_first_rank1_reported sum_exact mean_exact by_insertion ts_ABC spk_tie
              only_A H)
    as [i [best [Hi [Hrank [Hfirst [_ [_ Hrun]]]]]]].
  destruct (Hrun 2024) as [_ [Hin Hok]]; [reflexivity|].
  split; [exact (Hok eq_refl)|].
  exists best. split; [| exact Hin].
  destruct i as [|[|i]].
  - simpl in Hi. injection Hi as <-. simpl in Hrank. discriminate Hrank.
  - exact Hi.
  - exfalso. apply (Hfirst 1%nat (SPK.mk "A" 1 (9 # 10) 30 90 5 2)).
    + lia.
    + reflexivity.
    + reflexivity.
Defined.

Lemma filter_full_selection_witness :
  df_ts_filtered ts_AB
    {| selected_regions := ["A"; "B"]; selected_years := (2023, 2024) |} = ts_AB.
Proof.
  apply (filter_full_selection ts_AB ["A"; "B"] 2023 2024).
  - reflexivity.
  - reflexivity.
  - simpl. intros r H. decompose [or] H; subst; simpl; tauto.
Defined.

Lemma trend_chart_iff_rows_witness :
  In (plotly_chart (px_line [TS.mk "A" 2023 10; TS.mk "A" 2024 20]))
     (log_of (page sum_exact mean_exact by_insertion only_A
                {| df_ts := ts_AB; df_spk := spk_AB |})).
Proof.
  destruct (trend_chart_iff_rows sum_exact mean_exact by_insertion only_A
              {| df_ts := ts_AB; df_spk := spk_AB |})
    as [_ H].
  - vm_compute. reflexivity.
  - apply H. split; [reflexivity | discriminate].
Defined.

Lemma slider_bounds_cover_table_witness :
  exists lo hi,
    In (slider "Rentang Tahun:" lo hi (lo, hi))
       (log_of (sidebar by_insertion only_A {| df_ts := ts_AB; df_spk := spk_AB |})) /\
    lo <= hi /\
    In lo (map TS.Tahun ts_AB) /\ In hi (map TS.Tahun ts_AB).
Proof.
  destruct (slider_bounds_cover_table by_insertion only_A
              {| df_ts := ts_AB; df_spk := spk_AB |})
    as [lo [hi [H1 [H2 [H3 [H4 _]]]]]]; [discriminate | reflexivity |].
  exists lo, hi. auto.
Defined.

Lemma best_region_is_top_bar_witness :
  top_region spk_AB tt = (Ok "A", tt, []) /\
  top_score spk_AB tt = (Ok (9 # 10), tt, []) /\
  hd_error (bars_top_down (fig_bar by_insertion spk_AB))
  = Some (SPK.mk "A" 1 (9 # 10) 30 90 5 4).
Proof.
  apply (best_region_is_top_bar by_insertion spk_AB (SPK.mk "A" 1 (9 # 10) 30 90 5 4)
           unit tt).
  - simpl. repeat constructor; simpl; intuition lia.
  - simpl. intros r' H. decompose [or] H; subst; simpl; lia.
  - simpl. tauto.
  - reflexivity.
Defined.

Lemma download_is_full_table_witness :
  In (download_button "Download Hasil Analisis (CSV)" (to_csv_utf8 spk_AB false)
        "Laporan_SPK_Bansos_Jabar.csv" "text/csv")
     (log_of (page sum_exact mean_exact by_insertion only_A
                {| df_ts := ts_AB; df_spk := spk_AB |})).
Proof.
  destruct (download_is_full_table sum_exact mean_exact by_insertion only_A
              {| df_ts := ts_AB; df_spk := spk_AB |})
    as [_ H].
  apply H. vm_compute. reflexivity.
Defined.

